(** * llm_fastapi: the Classification Service and the Batch Annotator

    A shallow embedding of [src/main.py] (four FastAPI handlers, each a
    prompt template piped into a chat model and an output parser) and of
    [src/categorize_data.py] (a script that annotates the events of a JSON
    file through the categorize endpoint and rewrites the file in place).

    Python values are embedded as they are at run time: a [str] is a
    sequence of code points, a [dict] is an insertion-ordered association
    list, a [float] is a binary64 number, an exception is a value that is
    either caught by an enclosing [try] or propagates.  What the
    libraries decide (the JSON reader, [str(e)], [repr] of a float, the
    coercions of pydantic's lax mode) is an interface, [Runtime]; the chat
    model and the HTTP server are oracles. *)

From Stdlib Require Import ZArith NArith List String Ascii Bool Lia.
From Stdlib Require Import SpecFloat.
From Stdlib Require Import Decimal DecimalString.
Import ListNotations.

Set Implicit Arguments.
Set Warnings "-register-all".

(** ** Python strings *)

(** A [str] is a sequence of Unicode code points. *)
Definition pystr := list N.

(** [u s] is the [str] written [s] in the source (ASCII literals). *)
Definition u (s : string) : pystr :=
  map N_of_ascii (list_ascii_of_string s).

Fixpoint pystr_eqb (a b : pystr) : bool :=
  match a, b with
  | [], [] => true
  | x :: a', y :: b' => N.eqb x y && pystr_eqb a' b'
  | _, _ => false
  end.

(** The double quote, spliced into the literals that hold one. *)
Definition dq : string := String (ascii_of_nat 34) EmptyString.

(** [str(n)] for an [int]. *)
Definition str_of_Z (z : Z) : pystr :=
  u (NilZero.string_of_int (Z.to_int z)).

(** [sep.join(parts)]. *)
Fixpoint join (sep : pystr) (parts : list pystr) : pystr :=
  match parts with
  | [] => []
  | [p] => p
  | p :: rest => p ++ sep ++ join sep rest
  end.

(** ** Python floats *)

(** A [float] is a binary64 number: sign, 53-bit mantissa and exponent, as
    the standard library specifies IEEE 754 ([prec = 53], [emax = 1024]). *)
Definition float : Type := spec_float.

(** The binary64 number [m * 2 ^ e], when it is one. *)
Definition float_of (m e : Z) : float := binary_normalize 53 1024 m e false.

(** [a <= b] on floats; false when one of them is a NaN. *)
Definition float_leb (a b : float) : bool := SFleb a b.

(** ** JSON documents as Python objects *)

(** What [json.load] produces: [None], [bool], [int], [float], [str],
    [list] and [dict] with [str] keys. *)
Inductive json : Type :=
| JNull
| JBool (b : bool)
| JInt (z : Z)
| JFloat (f : float)
| JStr (s : pystr)
| JArr (items : list json)
| JObj (fields : list (pystr * json)).

(** A [dict] keeps its keys in insertion order and holds each key once. *)
Definition dict := list (pystr * json).

(** [d.get(k)]: the value at [k], if any. *)
Fixpoint dict_get (k : pystr) (d : dict) : option json :=
  match d with
  | [] => None
  | (k', v) :: rest => if pystr_eqb k k' then Some v else dict_get k rest
  end.

(** [d[k] = v]: overwrite in place when the key exists, append otherwise. *)
Fixpoint dict_set (k : pystr) (v : json) (d : dict) : dict :=
  match d with
  | [] => [(k, v)]
  | (k', v') :: rest =>
      if pystr_eqb k k' then (k', v) :: rest else (k', v') :: dict_set k v rest
  end.

(** [{**d1, **d2}]: a new dict holding [d1], then updated with [d2]. *)
Definition dict_merge (d1 d2 : dict) : dict :=
  fold_left (fun acc kv => dict_set (fst kv) (snd kv) acc) d2 d1.

Definition dict_keys (d : dict) : list pystr := map fst d.

(** ** Exceptions *)

(** The exception classes that the two programs can meet.  Each value
    carries what its message is built from; the wording is the library's
    ([exn_str] below). *)
Inductive exn : Type :=
| KeyError (key : pystr)
| TypeError (what : pystr)
| AttributeError (what : pystr)
| ValueError (what : pystr)
| FileNotFoundError (path : pystr)
| JSONDecodeError (doc : pystr)
| ValidationError (model : pystr) (input : json)
| HTTPStatusError (status_code : Z)
| TransportError (detail : pystr)
| InvalidJsonOutput (llm_output : pystr)
| FailedToParse (model : pystr) (completion : json)
| ProviderError (detail : pystr)
| OtherException (detail : pystr).

(** [InvalidJsonOutput] and [FailedToParse] are the two messages of
    langchain's [OutputParserException]: the reply is not JSON, or it is
    JSON that the pydantic model rejects. *)

(** [isinstance(e, httpx.HTTPError)]: the transport errors and the status
    error derive from it, nothing else here does. *)
Definition is_httpx_HTTPError (e : exn) : bool :=
  match e with
  | HTTPStatusError _ | TransportError _ => true
  | _ => false
  end.

Definition is_FileNotFoundError (e : exn) : bool :=
  match e with FileNotFoundError _ => true | _ => false end.

Definition is_JSONDecodeError (e : exn) : bool :=
  match e with JSONDecodeError _ => true | _ => false end.

(** A computation that returns or raises. *)
Inductive result (A : Type) : Type :=
| Ok (a : A)
| Raise (e : exn).
Arguments Ok {A} a.
Arguments Raise {A} e.

Definition rbind {A B} (r : result A) (f : A -> result B) : result B :=
  match r with
  | Ok a => f a
  | Raise e => Raise e
  end.

Declare Scope result_scope.
Delimit Scope result_scope with result.
Notation "x <- r ;; k" := (rbind r (fun x => k))
  (at level 61, r at next level, right associativity) : result_scope.
Notation "r ;; k" := (rbind r (fun _ => k))
  (at level 61, right associativity) : result_scope.

(** ** What the libraries decide *)

(** The parts of the Python runtime and of the libraries that neither
    program defines.  Every theorem below holds for each implementation of
    this interface. *)
Class Runtime : Type := {
  (** [json.loads]: the document, or nothing when the text is not JSON. *)
  json_loads : pystr -> option json;
  (** [float.__repr__], with [NaN] and [Infinity] as [json] writes them. *)
  float_repr : float -> pystr;
  (** [str(e)]. *)
  exn_str : exn -> pystr;
  (** [str(x)] of a value that is not a [str]. *)
  py_repr : json -> pystr;
  (** pydantic's lax coercion of an [int], [bool] or [str] to a [float]
      field, and of a [float], [bool] or [str] to an [int] field. *)
  coerce_float : json -> option float;
  coerce_int : json -> option Z;
  (** langchain's [parse_json_markdown], the JSON step of both output
      parsers: the reply as a document, or nothing. *)
  parse_json_markdown : pystr -> option json
}.

(** ** json.dumps *)

(** The backslash and the digits of a [\uXXXX] escape (lower case, as
    ['{0:04x}'.format] writes them). *)
Definition backslash : N := 92.

Definition hex_digit (n : N) : N :=
  if (n <? 10)%N then (48 + n)%N else (87 + n)%N.

Definition hex4 (n : N) : pystr :=
  [hex_digit ((n / 4096) mod 16); hex_digit ((n / 256) mod 16);
   hex_digit ((n / 16) mod 16); hex_digit (n mod 16)]%N.

Definition u_escape (n : N) : pystr := backslash :: u "u" ++ hex4 n.

(** One character of a string literal.  Both encoders escape the quote,
    the backslash and the control characters; only [ensure_ascii=True]
    escapes what lies beyond [~], with a surrogate pair above the BMP. *)
Definition escape_char (ensure_ascii : bool) (c : N) : pystr :=
  if (c =? 34)%N then [backslash; 34%N]
  else if (c =? 92)%N then [backslash; backslash]
  else if (c =? 10)%N then backslash :: u "n"
  else if (c =? 13)%N then backslash :: u "r"
  else if (c =? 9)%N then backslash :: u "t"
  else if (c =? 8)%N then backslash :: u "b"
  else if (c =? 12)%N then backslash :: u "f"
  else if (c <? 32)%N then u_escape c
  else if ensure_ascii && (126 <? c)%N then
    if (c <? 65536)%N then u_escape c
    else
      let v := (c - 65536)%N in
      u_escape (55296 + (v / 1024) mod 1024)%N
        ++ u_escape (56320 + v mod 1024)%N
  else [c].

Definition encode_basestring (ensure_ascii : bool) (s : pystr) : pystr :=
  34%N :: flat_map (escape_char ensure_ascii) s ++ [34%N].

Section Dumps.
Context {RT : Runtime}.

(** The keyword arguments of [json.dumps] that the programs pass. *)
Variable indent : option nat.
Variable ensure_ascii : bool.

(** With an indent the item separator loses its space. *)
Definition item_separator : pystr :=
  match indent with
  | None => u ", "
  | Some _ => u ","
  end.

Definition key_separator : pystr := u ": ".

Definition newline_indent (level : nat) : pystr :=
  match indent with
  | None => @nil N
  | Some n => 10%N :: repeat 32%N (n * level)
  end.

Fixpoint encode (level : nat) (v : json) : pystr :=
  match v with
  | JNull => u "null"
  | JBool true => u "true"
  | JBool false => u "false"
  | JInt z => str_of_Z z
  | JFloat f => float_repr f
  | JStr s => encode_basestring ensure_ascii s
  | JArr [] => u "[]"
  | JArr items =>
      u "[" ++ newline_indent (S level)
        ++ join (item_separator ++ newline_indent (S level))
             (map (encode (S level)) items)
        ++ newline_indent level ++ u "]"
  | JObj [] => u "{}"
  | JObj fields =>
      u "{" ++ newline_indent (S level)
        ++ join (item_separator ++ newline_indent (S level))
             (map (fun kv : pystr * json =>
                     let (k, x) := kv in
                     encode_basestring ensure_ascii k ++ key_separator
                       ++ encode (S level) x)
                  fields)
        ++ newline_indent level ++ u "}"
  end.

Definition json_dumps (v : json) : pystr := encode 0 v.
End Dumps.

(** ** str.format, as the prompt templates use it *)

Inductive piece : Type :=
| Lit (text : pystr)
| Field (name : pystr).

Definition flush (lit : pystr) (rest : list piece) : list piece :=
  match lit with
  | [] => rest
  | _ => Lit (List.rev lit) :: rest
  end.

(** The replacement fields of a format string: [{{] and [}}] stand for a
    brace, [{name}] for a field.  [lit] is the literal read so far and
    [field] the name being read, both reversed. *)
Fixpoint parse_format (s : pystr) (lit : pystr) (field : option pystr)
  : result (list piece) :=
  match field with
  | Some name =>
      match s with
      | [] => Raise (ValueError (u "expected '}' before end of string"))
      | c :: rest =>
          if (c =? 125)%N
          then rbind (parse_format rest [] None)
                 (fun ps => Ok (flush lit (Field (List.rev name) :: ps)))
          else parse_format rest lit (Some (c :: name))
      end
  | None =>
      match s with
      | [] => Ok (flush lit [])
      | c :: rest =>
          if (c =? 123)%N then
            match rest with
            | c2 :: rest2 =>
                if (c2 =? 123)%N
                then parse_format rest2 (123%N :: lit) None
                else parse_format rest lit (Some [])
            | [] =>
                Raise (ValueError (u "Single '{' encountered in format string"))
            end
          else if (c =? 125)%N then
            match rest with
            | c2 :: rest2 =>
                if (c2 =? 125)%N
                then parse_format rest2 (125%N :: lit) None
                else
                  Raise
                    (ValueError (u "Single '}' encountered in format string"))
            | [] =>
                Raise (ValueError (u "Single '}' encountered in format string"))
            end
          else parse_format rest (c :: lit) None
      end
  end.

(** The fields are filled with the values as they are: a brace inside a
    value is not read again. *)
Fixpoint fill (ps : list piece) (kwargs : list (pystr * pystr))
  : result pystr :=
  match ps with
  | [] => Ok []
  | Lit text :: rest => rbind (fill rest kwargs) (fun x => Ok (text ++ x))
  | Field name :: rest =>
      match find (fun kv => pystr_eqb name (fst kv)) kwargs with
      | Some kv => rbind (fill rest kwargs) (fun x => Ok (snd kv ++ x))
      | None => Raise (KeyError name)
      end
  end.

(** [ChatPromptTemplate.from_template(template).invoke(kwargs)], as text. *)
Definition format_prompt (template : string) (kwargs : list (pystr * pystr))
  : result pystr :=
  rbind (parse_format (u template) [] None) (fun ps => fill ps kwargs).

(** ** pydantic models *)

(** A [str] field takes a [str] only. *)
Definition validate_str (v : json) : option pystr :=
  match v with
  | JStr s => Some s
  | _ => None
  end.

Definition validate_float {RT : Runtime} (v : json) : option float :=
  match v with
  | JFloat f => Some f
  | JInt _ | JBool _ | JStr _ => coerce_float v
  | JNull | JArr _ | JObj _ => None
  end.

Definition validate_int {RT : Runtime} (v : json) : option Z :=
  match v with
  | JInt z => Some z
  | JFloat _ | JBool _ | JStr _ => coerce_int v
  | JNull | JArr _ | JObj _ => None
  end.

Fixpoint validate_all {A} (validate : json -> option A) (items : list json)
  : option (list A) :=
  match items with
  | [] => Some []
  | x :: rest =>
      match validate x, validate_all validate rest with
      | Some a, Some l => Some (a :: l)
      | _, _ => None
      end
  end.

(** A [List[str]] field. *)
Definition validate_list_str (v : json) : option (list pystr) :=
  match v with
  | JArr items => validate_all validate_str items
  | _ => None
  end.

(** A required field of the validated dict. *)
Definition required {A} (d : dict) (name : string)
    (validate : json -> option A) : option A :=
  match dict_get (u name) d with
  | Some v => validate v
  | None => None
  end.

(** [CategoryOutput] and [CategoryInput] are declared alike in [main.py]
    and in [categorize_data.py]. *)
Record CategoryOutput : Type := {
  category : pystr;
  confidence : float
}.

Record CategoryInput : Type := {
  title : pystr;
  description : pystr
}.

(** [CategoryOutput.model_validate(v)]: neither field declares a constraint
    beyond its type. *)
Definition CategoryOutput_fields {RT : Runtime} (v : json)
  : option CategoryOutput :=
  match v with
  | JObj d =>
      match required d "category" validate_str,
            required d "confidence" validate_float with
      | Some c, Some f => Some {| category := c; confidence := f |}
      | _, _ => None
      end
  | _ => None
  end.

(** [CategoryInput(title=t, description=d)]. *)
Definition CategoryInput_new (t d : json) : result CategoryInput :=
  match validate_str t, validate_str d with
  | Some t', Some d' => Ok {| title := t'; description := d' |}
  | _, _ =>
      Raise (ValidationError (u "CategoryInput")
               (JObj [(u "title", t); (u "description", d)]))
  end.

(** [category_input.model_dump()]. *)
Definition CategoryInput_model_dump (i : CategoryInput) : dict :=
  [(u "title", JStr (title i)); (u "description", JStr (description i))].

(** A model called on unpacked keyword arguments, [Model( **v )]: [v] has
    to be a mapping, then the model validates it. *)
Definition kwargs_call {A} (model : string) (fields : json -> option A)
    (v : json) : result A :=
  match v with
  | JObj _ =>
      match fields v with
      | Some a => Ok a
      | None => Raise (ValidationError (u model) v)
      end
  | _ => Raise (TypeError (u "argument after ** must be a mapping"))
  end.

(** ** The Classification Service ([main.py]) *)

Module Service.

(** [llm = ChatOpenAI(model="gpt-4.1-nano", temperature=0)]: a prompt goes
    out, and the reply's text comes back or the call raises. *)
Class ChatModel : Type := {
  llm_invoke : pystr -> result pystr
}.

(** What FastAPI answers when a handler raises [HTTPException]. *)
Record HTTPException : Type := {
  status_code : Z;
  detail : pystr
}.

(** A handler returns its body or raises an [HTTPException]. *)
Inductive response (A : Type) : Type :=
| Returned (body : A)
| Raised (err : HTTPException).
Arguments Returned {A} body.
Arguments Raised {A} err.

Record SentimentDetail : Type := {
  strength : Z;
  detectedEmotions : list pystr
}.

Record Sentiment : Type := {
  agitation : SentimentDetail;
  neutral : SentimentDetail;
  positive : SentimentDetail
}.

Module SentimentInput.
Record t : Type := {
  title : pystr;
  description : pystr;
  last_news : pystr
}.
End SentimentInput.

Record NewEventInput : Type := {
  news_content : pystr
}.

Module NewEventOutput.
Record t : Type := {
  title : pystr;
  description : pystr
}.
End NewEventOutput.

Record VerificationInput : Type := {
  event_info : dict;
  authority_info : pystr
}.

Record VerificationOutput : Type := {
  comparison : pystr;
  correctness : pystr;
  justification : pystr;
  public_response : pystr
}.

Definition prompt_sentiment : string :=
  ("
    Analyze the sentiment expressed in these recent tweets about an event in Lublin.

    Event: {title}

    Context: {description}

    Recent Tweets:
    {last_news}

    Provide a sentiment analysis with the following structure:
    {{
        " ++ dq ++ "agitation" ++ dq ++ ": {{
            " ++ dq ++ "strength" ++ dq ++ ": <0-100>,
            " ++ dq ++ "detectedEmotions" ++ dq ++ ": [" ++ dq ++ "emotion1" ++ dq ++ ", " ++ dq ++ "emotion2" ++ dq ++ ", ...]
        }},
        " ++ dq ++ "neutral" ++ dq ++ ": {{
            " ++ dq ++ "strength" ++ dq ++ ": <0-100>,
            " ++ dq ++ "detectedEmotions" ++ dq ++ ": [" ++ dq ++ "emotion1" ++ dq ++ ", " ++ dq ++ "emotion2" ++ dq ++ ", ...]
        }},
        " ++ dq ++ "positive" ++ dq ++ ": {{
            " ++ dq ++ "strength" ++ dq ++ ": <0-100>,
            " ++ dq ++ "detectedEmotions" ++ dq ++ ": [" ++ dq ++ "emotion1" ++ dq ++ ", " ++ dq ++ "emotion2" ++ dq ++ ", ...]
        }}
    }}

    Ensure the JSON is valid and the strengths across all categories sum to 100.
    ")%string.

Definition prompt_new_event : string :=
  ("
You are an expert in creating concise titles and descriptions for news articles to represent new events.

Here is the unrelated News article:
{news_content}

Based on this news article, create a short, descriptive title and a concise description that captures the essence of the event.

Return your response as a JSON object with the following format in Polish language:
{{
    " ++ dq ++ "title" ++ dq ++ ": " ++ dq ++ "Short summary of the news event" ++ dq ++ ",
    " ++ dq ++ "description" ++ dq ++ ": " ++ dq ++ "Concise description of the news event." ++ dq ++ "
}}

Strictly follow the JSON format in your response. Do not include any additional text or explanations.
")%string.

Definition prompt_verification : string :=
  ("
You are an expert in verifying information related to events. You will be given information about an event and official information from authorities. Your task is to:

1. Differentiate between the event information and the authority information.
2. Check if the authority information confirms, contradicts, or provides additional context to the event information.
3. Determine the correctness of the event information based on the authority information.
4. Provide a message in Polish language that suggests a public response to the event information, including a summary of the event, a summary of the authority information, and an assessment of the correctness of the event information.

Here is the Event information:
{event_info}

Here is the Official information from authorities:
{authority_info}

Provide your analysis in a JSON object with the following structure in Polish language:
{{
    " ++ dq ++ "comparison" ++ dq ++ ": " ++ dq ++ "Detailed comparison of the event and authority information." ++ dq ++ ",
    " ++ dq ++ "correctness" ++ dq ++ ": " ++ dq ++ "Assessment of the event information's correctness (e.g., \" ++ dq ++ "Correct\" ++ dq ++ ", \" ++ dq ++ "Incorrect\" ++ dq ++ ", \" ++ dq ++ "Partially Correct\" ++ dq ++ ", \" ++ dq ++ "Cannot Determine\" ++ dq ++ ")." ++ dq ++ ",
    " ++ dq ++ "justification" ++ dq ++ ": " ++ dq ++ "Explanation for the correctness assessment, referencing specific details from both sources." ++ dq ++ ",
    " ++ dq ++ "public_response" ++ dq ++ ": " ++ dq ++ "Suggested public response to the event information, including a summary of the event, a summary of the authority information, and an assessment of the correctness of the event information." ++ dq ++ "
}}

Strictly follow the JSON format. Do not include any extra text.
")%string.

Definition prompt_category : string :=
  ("
You are an expert in categorizing events based on their title and description.
Given the following event title and description, determine the most appropriate category for this event in Polish Language.
Also, provide a confidence score between 0 and 1 for your categorization.

Title: {title}
Description: {description}

Return your response as a JSON object with the following format:
{{
    " ++ dq ++ "category" ++ dq ++ ": " ++ dq ++ "The determined category" ++ dq ++ ",
    " ++ dq ++ "confidence" ++ dq ++ ": <0.0-1.0>
}}

Strictly follow the JSON format. Do not include any additional text or explanations.
")%string.

Section Handlers.
Context {RT : Runtime} {LLM : ChatModel}.

(** [strength: int = Field(ge=0, le=100)] and [detectedEmotions]. *)
Definition SentimentDetail_fields (v : json) : option SentimentDetail :=
  match v with
  | JObj d =>
      match required d "strength" validate_int,
            required d "detectedEmotions" validate_list_str with
      | Some n, Some es =>
          if (0 <=? n)%Z && (n <=? 100)%Z
          then Some {| strength := n; detectedEmotions := es |}
          else None
      | _, _ => None
      end
  | _ => None
  end.

Definition Sentiment_fields (v : json) : option Sentiment :=
  match v with
  | JObj d =>
      match required d "agitation" SentimentDetail_fields,
            required d "neutral" SentimentDetail_fields,
            required d "positive" SentimentDetail_fields with
      | Some a, Some n, Some p =>
          Some {| agitation := a; neutral := n; positive := p |}
      | _, _, _ => None
      end
  | _ => None
  end.

Definition NewEventOutput_fields (v : json) : option NewEventOutput.t :=
  match v with
  | JObj d =>
      match required d "title" validate_str,
            required d "description" validate_str with
      | Some t, Some ds =>
          Some {| NewEventOutput.title := t;
                  NewEventOutput.description := ds |}
      | _, _ => None
      end
  | _ => None
  end.

Definition VerificationOutput_fields (v : json)
  : option VerificationOutput :=
  match v with
  | JObj d =>
      match required d "comparison" validate_str,
            required d "correctness" validate_str,
            required d "justification" validate_str,
            required d "public_response" validate_str with
      | Some c, Some r, Some j, Some p =>
          Some {| comparison := c; correctness := r;
                  justification := j; public_response := p |}
      | _, _, _, _ => None
      end
  | _ => None
  end.

(** [JsonOutputParser()]. *)
Definition json_output_parser (text : pystr) : result json :=
  match parse_json_markdown text with
  | Some obj => Ok obj
  | None => Raise (InvalidJsonOutput text)
  end.

(** [PydanticOutputParser(pydantic_object=Model)]: the JSON step, then
    [Model.model_validate]. *)
Definition pydantic_output_parser {A} (model : string)
    (fields : json -> option A) (text : pystr) : result A :=
  rbind (json_output_parser text)
    (fun obj =>
       match fields obj with
       | Some a => Ok a
       | None => Raise (FailedToParse (u model) obj)
       end).

Definition sentiment_parser : pystr -> result Sentiment :=
  pydantic_output_parser "Sentiment" Sentiment_fields.

Definition category_parser : pystr -> result CategoryOutput :=
  pydantic_output_parser "CategoryOutput" CategoryOutput_fields.

(** [(prompt | llm | parser).invoke(kwargs)], with the prompts that
    were sent to the model. *)
Definition chain_invoke {A} (prompt : string)
    (parser : pystr -> result A) (kwargs : list (pystr * pystr))
  : result A * list pystr :=
  match format_prompt prompt kwargs with
  | Raise e => (Raise e, [])
  | Ok text => (rbind (llm_invoke text) parser, [text])
  end.

Definition sentiment_chain := chain_invoke prompt_sentiment sentiment_parser.
Definition new_event_chain := chain_invoke prompt_new_event json_output_parser.
Definition verification_chain :=
  chain_invoke prompt_verification json_output_parser.
Definition category_chain := chain_invoke prompt_category category_parser.

(** [try: ... except Exception as e:
     raise HTTPException(status_code=500, detail=str(e))]. *)
Definition try_except {A} (body : result A) : response A :=
  match body with
  | Ok a => Returned a
  | Raise e => Raised {| status_code := 500; detail := exn_str e |}
  end.

Definition categorize_event (category_input : CategoryInput)
  : response CategoryOutput * list pystr :=
  let (result, sent) :=
    category_chain
      [(u "title", title category_input);
       (u "description", description category_input)] in
  (try_except result, sent).

Definition analyze_sentiment (sentiment_input : SentimentInput.t)
  : response Sentiment * list pystr :=
  let (result, sent) :=
    sentiment_chain
      [(u "title", SentimentInput.title sentiment_input);
       (u "description", SentimentInput.description sentiment_input);
       (u "last_news", SentimentInput.last_news sentiment_input)] in
  (try_except result, sent).

Definition create_new_event_endpoint (new_event_input : NewEventInput)
  : response NewEventOutput.t * list pystr :=
  let (result, sent) :=
    new_event_chain [(u "news_content", news_content new_event_input)] in
  (try_except
     (rbind result (kwargs_call "NewEventOutput" NewEventOutput_fields)),
   sent).

Definition verify_event_information_endpoint
    (verification_input : VerificationInput)
  : response VerificationOutput * list pystr :=
  let (result, sent) :=
    verification_chain
      [(u "event_info",
        json_dumps None false (JObj (event_info verification_input)));
       (u "authority_info", authority_info verification_input)] in
  (try_except
     (rbind result
        (kwargs_call "VerificationOutput" VerificationOutput_fields)),
   sent).

(** *** What the statements observe *)

(** The answer that the [except] clause gives for [e]. *)
Definition server_error (e : exn) : HTTPException :=
  {| status_code := 500; detail := exn_str e |}.

(** What a reply that is JSON of another shape raises: in a
    [PydanticOutputParser], and in a call of the model on the parsed
    reply. *)
Definition rejected_by_parser (model : string) (obj : json) : exn :=
  FailedToParse (u model) obj.

Definition rejected_by_call (model : string) (obj : json) : exn :=
  match obj with
  | JObj _ => ValidationError (u model) obj
  | _ => TypeError (u "argument after ** must be a mapping")
  end.

(** A run of a handler whose reply is validated by [fields]: one prompt
    went to the model, and the answer is the whole validated body or the
    server error of the failure met. *)
Definition handled {A} (fields : json -> option A) (mismatch : json -> exn)
    (run : response A * list pystr) : Prop :=
  exists prompt,
    snd run = [prompt] /\
    fst run
    = match llm_invoke prompt with
      | Raise e => Raised (server_error e)
      | Ok reply =>
          match parse_json_markdown reply with
          | None => Raised (server_error (InvalidJsonOutput reply))
          | Some obj =>
              match fields obj with
              | Some body => Returned body
              | None => Raised (server_error (mismatch obj))
              end
          end
      end.

(** [ge=0, le=100]. *)
Definition in_0_100 (n : Z) : Prop := (0 <= n <= 100)%Z.

(** A confidence between 0.0 and 1.0. *)
Definition in_unit_interval (f : float) : bool :=
  float_leb (float_of 0 0) f && float_leb f (float_of 1 0).

End Handlers.
End Service.

(** ** The Batch Annotator ([categorize_data.py]) *)

(** [str(x)], as an f-string applies it to a field. *)
Definition py_str {RT : Runtime} (v : json) : pystr :=
  match v with
  | JStr s => s
  | _ => py_repr v
  end.

(** [obj[key]] for a [str] key: only a [dict] can be indexed by one. *)
Definition getitem (obj : json) (key : string) : result json :=
  match obj with
  | JObj d =>
      match dict_get (u key) d with
      | Some v => Ok v
      | None => Raise (KeyError (u key))
      end
  | _ => Raise (TypeError (u "object is not subscriptable by a str"))
  end.

(** [obj[key] = v]. *)
Definition setitem (obj : json) (key : string) (v : json) : result json :=
  match obj with
  | JObj d => Ok (JObj (dict_set (u key) v d))
  | _ => Raise (TypeError (u "object does not support item assignment"))
  end.

(** [data.get(key, default)]: a method of [dict]; what [json.load] returns
    need not be one. *)
Definition get_default (data : json) (key : string) (default : json)
  : result json :=
  match data with
  | JObj d =>
      match dict_get (u key) d with
      | Some v => Ok v
      | None => Ok default
      end
  | JArr _ => Raise (AttributeError (u "'list' object has no attribute 'get'"))
  | _ => Raise (AttributeError (u "object has no attribute 'get'"))
  end.

(** What [for x in obj] ranges over: the items of a [list], the characters
    of a [str], the keys of a [dict]; the other values are not iterable. *)
Definition py_iter (obj : json) : result (list json) :=
  match obj with
  | JArr items => Ok items
  | JStr s => Ok (map (fun c => JStr [c]) s)
  | JObj d => Ok (map JStr (dict_keys d))
  | _ => Raise (TypeError (u "object is not iterable"))
  end.

Module Annotator.

(** An [httpx.Response], as far as the script reads it. *)
Record Response : Type := {
  status_code : Z;
  text : pystr
}.

(** The server behind [endpoint_url]: what [client.post] gives for the
    [n]-th request of the run, a response or an exception. *)
Class CategorizeServer : Type := {
  http_post : nat -> pystr -> json -> result Response
}.

(** What the script does to the outside, in order. *)
Inductive effect : Type :=
| Print (line : pystr)
| Post (url : pystr) (payload : json)
| Seek (offset : nat)
| Write (data : pystr)
| Truncate.

Definition is_post (e : effect) : bool :=
  match e with Post _ _ => true | _ => false end.

Definition is_file_write (e : effect) : bool :=
  match e with Write _ | Truncate => true | _ => false end.

(** The file at [filepath] (absent, or its characters), the position of
    the open handle [f], and the effects so far. *)
Record world : Type := {
  disk : option pystr;
  cursor : nat;
  trace : list effect
}.

Definition count_posts (w : world) : nat :=
  List.length (filter is_post (trace w)).

(** A step of the script: it returns or raises, and changes the world
    either way. *)
Definition M (A : Type) : Type := world -> result A * world.

Definition ret {A} (a : A) : M A := fun w => (Ok a, w).

Definition bind {A B} (m : M A) (f : A -> M B) : M B :=
  fun w =>
    match m w with
    | (Ok a, w') => f a w'
    | (Raise e, w') => (Raise e, w')
    end.

Definition lift {A} (r : result A) : M A := fun w => (r, w).

(** [try: body except ...: handler]: [handler e] is the clause that
    matches [e], if one does. *)
Definition try_catch {A} (body : M A) (handler : exn -> option (M A))
  : M A :=
  fun w =>
    match body w with
    | (Ok a, w') => (Ok a, w')
    | (Raise e, w') =>
        match handler e with
        | Some h => h w'
        | None => (Raise e, w')
        end
    end.

Declare Scope io_scope.
Delimit Scope io_scope with io.
Notation "x <- m ;; k" := (bind m (fun x => k))
  (at level 61, m at next level, right associativity) : io_scope.
Notation "m ;; k" := (bind m (fun _ => k))
  (at level 61, right associativity) : io_scope.

Definition emit (e : effect) : M unit :=
  fun w =>
    (Ok tt, {| disk := disk w; cursor := cursor w; trace := trace w ++ [e] |}).

Definition print (line : pystr) : M unit := emit (Print line).

(** [open(filepath, "r+", encoding="utf-8")]: the file has to exist. *)
Definition open_rplus (filepath : pystr) : M unit :=
  fun w =>
    match disk w with
    | None => (Raise (FileNotFoundError filepath), w)
    | Some _ => (Ok tt, {| disk := disk w; cursor := 0; trace := trace w |})
    end.

(** [f.seek(offset)]. *)
Definition seek (offset : nat) : M unit :=
  fun w =>
    (Ok tt,
     {| disk := disk w; cursor := offset; trace := trace w ++ [Seek offset] |}).

(** [f.write(data)] (one call stands for the chunks of [json.dump]): the
    characters go over what is there from the position on. *)
Definition write (data : pystr) : M unit :=
  fun w =>
    match disk w with
    | None => (Raise (ValueError (u "I/O operation on closed file")), w)
    | Some content =>
        (Ok tt,
         {| disk :=
              Some (firstn (cursor w) content ++ data
                      ++ skipn (cursor w + List.length data) content);
            cursor := cursor w + List.length data;
            trace := trace w ++ [Write data] |})
    end.

(** [f.truncate()]: the file ends at the position. *)
Definition truncate : M unit :=
  fun w =>
    match disk w with
    | None => (Raise (ValueError (u "I/O operation on closed file")), w)
    | Some content =>
        (Ok tt,
         {| disk := Some (firstn (cursor w) content);
            cursor := cursor w;
            trace := trace w ++ [Truncate] |})
    end.

Section Script.
Context {RT : Runtime} {SRV : CategorizeServer}.

(** [json.load(f)]: the rest of the file is read and parsed. *)
Definition json_load : M json :=
  fun w =>
    match disk w with
    | None => (Raise (ValueError (u "I/O operation on closed file")), w)
    | Some content =>
        let rest := skipn (cursor w) content in
        let w' :=
          {| disk := disk w; cursor := List.length content; trace := trace w |} in
        match json_loads rest with
        | Some v => (Ok v, w')
        | None => (Raise (JSONDecodeError rest), w')
        end
    end.

(** [await client.post(endpoint_url, json=payload)]. *)
Definition post (endpoint_url : pystr) (payload : json) : M Response :=
  fun w =>
    (http_post (count_posts w) endpoint_url payload,
     {| disk := disk w; cursor := cursor w;
        trace := trace w ++ [Post endpoint_url payload] |}).

(** [response.raise_for_status()]: anything but a 2xx status raises. *)
Definition raise_for_status (response : Response) : result unit :=
  if (200 <=? status_code response)%Z && (status_code response <=? 299)%Z
  then Ok tt
  else Raise (HTTPStatusError (status_code response)).

(** [response.json()]. *)
Definition response_json (response : Response) : result json :=
  match json_loads (text response) with
  | Some v => Ok v
  | None => Raise (JSONDecodeError (text response))
  end.

(** Lines 33 to 37: what the [try] block makes of a response. *)
Definition read_response (response : Response) : result dict :=
  (raise_for_status response ;;
   body <- response_json response ;;
   category_output <- kwargs_call "CategoryOutput" CategoryOutput_fields body ;;
   Ok [(u "category", JStr (category category_output))])%result.

(** Line 29, which stands before the [try]: the request of an event. *)
Definition request_of (event_data : json) : result CategoryInput :=
  (t <- getitem event_data "title" ;;
   d <- getitem event_data "description" ;;
   CategoryInput_new t d)%result.

Definition categorize_event (endpoint_url : pystr) (event_data : json)
  : M (option dict) :=
  (category_input <- lift (request_of event_data) ;;
   try_catch
     (response <- post endpoint_url
                    (JObj (CategoryInput_model_dump category_input)) ;;
      info <- lift (read_response response) ;;
      ret (Some info))
     (fun e =>
        if is_httpx_HTTPError e then
          Some
            (t' <- lift (getitem event_data "title") ;;
             print (u "Error categorizing event '" ++ py_str t' ++ u "': "
                      ++ exn_str e) ;;
             ret None)
        else
          Some
            (t' <- lift (getitem event_data "title") ;;
             print (u "An unexpected error occurred while categorizing event '"
                      ++ py_str t' ++ u "': " ++ exn_str e) ;;
             ret None)))%io.

(** [if category_info:] a [dict] counts as true when it is not empty. *)
Definition truthy (category_info : option dict) : bool :=
  match category_info with
  | Some (_ :: _) => true
  | _ => false
  end.

(** The loop of lines 59 to 65, over what is left of [events]. *)
Fixpoint for_event_in (endpoint_url : pystr) (events : list json)
    (updated_events : list json) : M (list json) :=
  match events with
  | [] => ret updated_events
  | event :: rest =>
      (category_info <- categorize_event endpoint_url event ;;
       if truthy category_info then
         match event, category_info with
         | JObj d, Some info =>
             for_event_in endpoint_url rest
               (updated_events ++ [JObj (dict_merge d info)])
         | _, _ =>
             lift (Raise (TypeError (u "object is not a mapping")))
         end
       else for_event_in endpoint_url rest (updated_events ++ [event]))%io
  end.

Definition process_and_update_events (endpoint_url filepath : pystr)
  : M unit :=
  try_catch
    (open_rplus filepath ;;
     data <- json_load ;;
     events <- lift (get_default data "events" (JArr [])) ;;
     items <- lift (py_iter events) ;;
     updated_events <- for_event_in endpoint_url items [] ;;
     data' <- lift (setitem data "events" (JArr updated_events)) ;;
     seek 0 ;;
     write (json_dumps (Some 4) false data') ;;
     truncate)%io
    (fun e =>
       if is_FileNotFoundError e then
         Some (print (u "Error: " ++ filepath ++ u " not found."))
       else if is_JSONDecodeError e then
         Some (print (u "Error: Invalid JSON format in " ++ filepath ++ u "."))
       else None).

Definition endpoint_url : pystr := u "http://127.0.0.1:8000/categorize_event".
Definition json_filepath : pystr := u "data.json".

Definition main : M unit :=
  (process_and_update_events endpoint_url json_filepath ;;
   print (u "Successfully added 'category' field to " ++ json_filepath
            ++ u "."))%io.

(** *** What the statements observe *)

(** The world after more effects. *)
Definition log (w : world) (es : list effect) : world :=
  {| disk := disk w; cursor := cursor w; trace := trace w ++ es |}.

(** What the [n]-th request of a run comes to: the dict of line 35, or the
    exception that the [try] block raises. *)
Definition answer_at (n : nat) (url : pystr) (category_input : CategoryInput)
  : result dict :=
  rbind (http_post n url (JObj (CategoryInput_model_dump category_input)))
    read_response.

(** The line that the [except] clause for [e] prints. *)
Definition failure_line (category_input : CategoryInput) (e : exn) : pystr :=
  if is_httpx_HTTPError e then
    u "Error categorizing event '" ++ title category_input ++ u "': "
      ++ exn_str e
  else
    u "An unexpected error occurred while categorizing event '"
      ++ title category_input ++ u "': " ++ exn_str e.

(** An event as the loop leaves it when its request is the [n]-th. *)
Definition annotate (n : nat) (url : pystr) (event : json) : json :=
  match request_of event with
  | Ok category_input =>
      match answer_at n url category_input, event with
      | Ok info, JObj d => JObj (dict_merge d info)
      | _, _ => event
      end
  | Raise _ => event
  end.

Fixpoint annotate_from (n : nat) (url : pystr) (events : list json)
  : list json :=
  match events with
  | [] => []
  | event :: rest => annotate n url event :: annotate_from (S n) url rest
  end.

(** The effects of one turn of the loop, and of the loop. *)
Definition turn_effects (n : nat) (url : pystr) (event : json)
  : list effect :=
  match request_of event with
  | Ok category_input =>
      Post url (JObj (CategoryInput_model_dump category_input))
        :: match answer_at n url category_input with
           | Ok _ => []
           | Raise e => [Print (failure_line category_input e)]
           end
  | Raise _ => []
  end.

Fixpoint loop_effects (n : nat) (url : pystr) (events : list json)
  : list effect :=
  match events with
  | [] => []
  | event :: rest => turn_effects n url event ++ loop_effects (S n) url rest
  end.

(** An event that carries a [str] title and a [str] description. *)
Definition is_event_record (event : json) : bool :=
  match event with
  | JObj d =>
      match dict_get (u "title") d, dict_get (u "description") d with
      | Some (JStr _), Some (JStr _) => true
      | _, _ => false
      end
  | _ => false
  end.

(** The ways in which the request of an event fails: the transport raises,
    the status is not 2xx, the body is not JSON, or it is JSON of another
    shape than [CategoryOutput]. *)
Inductive categorization_fails : result Response -> Prop :=
| transport_error (e : exn) :
    categorization_fails (Raise e)
| bad_status (r : Response) :
    ((200 <=? status_code r)%Z && (status_code r <=? 299)%Z = false) ->
    categorization_fails (Ok r)
| malformed_body (r : Response) :
    json_loads (text r) = None ->
    categorization_fails (Ok r)
| shape_mismatch (r : Response) (v : json) :
    json_loads (text r) = Some v ->
    CategoryOutput_fields v = None ->
    categorization_fails (Ok r).


(** The two fatal states of the file: absent, or not JSON. *)
Definition fatal (file : option pystr) : Prop :=
  match file with
  | None => True
  | Some content => json_loads content = None
  end.

(** The line that [process_and_update_events] prints for a fatal state. *)
Definition fatal_line (filepath : pystr) (file : option pystr) : pystr :=
  match file with
  | None => u "Error: " ++ filepath ++ u " not found."
  | Some _ => u "Error: Invalid JSON format in " ++ filepath ++ u "."
  end.

(** The world once [json.load] has read the whole of [content]. *)
Definition loaded (content : pystr) : world :=
  {| disk := Some content; cursor := List.length content; trace := [] |}.

(** The message of line 84. *)
Definition success_line : pystr :=
  u "Successfully added 'category' field to " ++ json_filepath ++ u ".".

End Script.
End Annotator.

(** ** Collaborators for the examples *)

(** The binary64 nearest to 0.9, and 7.5. *)
Definition float_0_9 : float := float_of 8106479329266893 (-53).
Definition float_7_5 : float := float_of 15 (-1).

(** A reader that knows the texts of a table and rejects every other
    text; a [repr] that knows the two floats above; messages that name the
    class of the exception. *)
Definition table_runtime (table : list (pystr * json)) : Runtime := {|
  json_loads := fun text =>
    option_map snd (find (fun e => pystr_eqb text (fst e)) table);
  float_repr := fun f =>
    if SFeqb f float_0_9 then u "0.9"
    else if SFeqb f float_7_5 then u "7.5"
    else u "0.0";
  exn_str := fun e =>
    match e with
    | KeyError key => u "'" ++ key ++ u "'"
    | HTTPStatusError code => u "status " ++ str_of_Z code
    | TransportError d | ProviderError d | OtherException d => d
    | TypeError d | AttributeError d | ValueError d => d
    | FileNotFoundError path => u "No such file or directory: " ++ path
    | JSONDecodeError _ => u "Expecting value"
    | InvalidJsonOutput text => u "Invalid json output: " ++ text
    | FailedToParse model _ => u "Failed to parse " ++ model
    | ValidationError model _ => u "validation error for " ++ model
    end;
  py_repr := fun _ => u "<object>";
  coerce_float := fun _ => None;
  coerce_int := fun _ => None;
  parse_json_markdown := fun text =>
    option_map snd (find (fun e => pystr_eqb text (fst e)) table)
|}.

(** A server that answers every request alike. *)
Definition constant_server (answer : result Annotator.Response)
  : Annotator.CategorizeServer :=
  {| Annotator.http_post := fun _ _ _ => answer |}.

(** A chat model that answers every prompt alike. *)
Definition constant_model (answer : result pystr) : Service.ChatModel :=
  {| Service.llm_invoke := fun _ => answer |}.

(** A world in which [filepath] holds [file] and nothing has happened. *)
Definition start (file : option pystr) : Annotator.world :=
  {| Annotator.disk := file; Annotator.cursor := 0; Annotator.trace := [] |}.

(** The model's reply [{"category": "Traffic", "confidence": 0.9}] and
    the file [{"events": [{"title": "A", "description": "d1"}]}] of the
    spec's scenarios. *)
Definition traffic_text : pystr :=
  u ("{" ++ dq ++ "category" ++ dq ++ ": " ++ dq ++ "Traffic" ++ dq ++ ", "
       ++ dq ++ "confidence" ++ dq ++ ": 0.9}").

Definition traffic_json : json :=
  JObj [(u "category", JStr (u "Traffic")); (u "confidence", JFloat float_0_9)].

Definition event_A : json :=
  JObj [(u "title", JStr (u "A")); (u "description", JStr (u "d1"))].

Definition file_A_text : pystr :=
  u ("{" ++ dq ++ "events" ++ dq ++ ": [{" ++ dq ++ "title" ++ dq ++ ": "
       ++ dq ++ "A" ++ dq ++ ", " ++ dq ++ "description" ++ dq ++ ": "
       ++ dq ++ "d1" ++ dq ++ "}]}").

Definition file_A_json : json := JObj [(u "events", JArr [event_A])].

(** A reply that matches [CategoryOutput] with an empty category and a
    confidence of 7.5. *)
Definition unchecked_json : json :=
  JObj [(u "category", JStr []); (u "confidence", JFloat float_7_5)].

Definition unchecked_text : pystr :=
  u ("{" ++ dq ++ "category" ++ dq ++ ": " ++ dq ++ dq ++ ", "
       ++ dq ++ "confidence" ++ dq ++ ": 7.5}").

(** A reply that matches [Sentiment]. *)
Definition sentiment_json : json :=
  JObj
    [(u "agitation",
      JObj [(u "strength", JInt 20);
            (u "detectedEmotions", JArr [JStr (u "anger")])]);
     (u "neutral",
      JObj [(u "strength", JInt 50); (u "detectedEmotions", JArr [])]);
     (u "positive",
      JObj [(u "strength", JInt 30);
            (u "detectedEmotions", JArr [JStr (u "joy")])])].

Definition sentiment_text : pystr :=
  @json_dumps (table_runtime []) None false sentiment_json.

Definition sentiment_body : Service.Sentiment :=
  {| Service.agitation :=
       {| Service.strength := 20;
          Service.detectedEmotions := [u "anger"] |};
     Service.neutral :=
       {| Service.strength := 50; Service.detectedEmotions := [] |};
     Service.positive :=
       {| Service.strength := 30;
          Service.detectedEmotions := [u "joy"] |} |}.

Definition sentiment_input_A : Service.SentimentInput.t :=
  {| Service.SentimentInput.title := u "A";
     Service.SentimentInput.description := u "d1";
     Service.SentimentInput.last_news := u "n1" |}.

Definition category_input_A : CategoryInput :=
  {| title := u "A"; description := u "d1" |}.

(** The file [{"events": [{"description": "d0"}, {"title": "A",
    "description": "d1"}]}], whose first event has no title. *)
Definition file_untitled_text : pystr :=
  u ("{" ++ dq ++ "events" ++ dq ++ ": [{" ++ dq ++ "description" ++ dq
       ++ ": " ++ dq ++ "d0" ++ dq ++ "}, {" ++ dq ++ "title" ++ dq ++ ": "
       ++ dq ++ "A" ++ dq ++ ", " ++ dq ++ "description" ++ dq ++ ": "
       ++ dq ++ "d1" ++ dq ++ "}]}").

Definition file_untitled_json : json :=
  JObj [(u "events",
         JArr [JObj [(u "description", JStr (u "d0"))]; event_A])].


(** The file after the first scenario, as [json.dump] with [indent=4]
    lays it out. *)
Definition file_A_annotated_text : pystr :=
  u ("{
    " ++ dq ++ "events" ++ dq ++ ": [
        {
            " ++ dq ++ "title" ++ dq ++ ": " ++ dq ++ "A" ++ dq ++ ",
            " ++ dq ++ "description" ++ dq ++ ": " ++ dq ++ "d1" ++ dq ++ ",
            " ++ dq ++ "category" ++ dq ++ ": " ++ dq ++ "Traffic" ++ dq ++ "
        }
    ]
}").

(** ** More examples *)

(** The file [{"version": 1, "events": [...]}] with the event of the
    scenarios, and the file [{"version": 1}] without events. *)
Definition file_versioned_json : json :=
  JObj [(u "version", JInt 1); (u "events", JArr [event_A])].

Definition file_versioned_text : pystr :=
  @json_dumps (table_runtime []) None false file_versioned_json.



(** A file whose document is a list, and one whose [events] is the empty
    string. *)
Definition file_list_json : json := JArr [event_A].

Definition file_list_text : pystr :=
  @json_dumps (table_runtime []) None false file_list_json.





(** An answer of the endpoint that holds a category and no confidence. *)
Definition category_only_json : json :=
  JObj [(u "category", JStr (u "Traffic"))].

Definition category_only_text : pystr :=
  @json_dumps (table_runtime []) None false category_only_json.

(** The document of [file_A_annotated_text]. *)
Definition file_A_annotated_json : json :=
  JObj [(u "events",
         JArr [JObj [(u "title", JStr (u "A"));
                     (u "description", JStr (u "d1"));
                     (u "category", JStr (u "Traffic"))]])].

(** A block of a sentiment reply, and the reply of three blocks. *)
Definition detail_json (strength : Z) (emotions : list pystr) : json :=
  JObj [(u "strength", JInt strength);
        (u "detectedEmotions", JArr (map JStr emotions))].

Definition sentiment_reply (agitation neutral positive : json) : json :=
  JObj [(u "agitation", agitation); (u "neutral", neutral);
        (u "positive", positive)].

(** Replies of the model for the other endpoints. *)
Definition new_event_json : json :=
  JObj [(u "title", JStr (u "T")); (u "description", JStr (u "D"));
        (u "note", JInt 1)].

Definition new_event_text : pystr :=
  @json_dumps (table_runtime []) None false new_event_json.

Definition verification_json : json :=
  JObj [(u "comparison", JStr (u "c")); (u "correctness", JStr (u "Maybe"));
        (u "justification", JStr (u "j"));
        (u "public_response", JStr (u "p"))].

Definition verification_text : pystr :=
  @json_dumps (table_runtime []) None false verification_json.

Definition full_sentiment_json : json :=
  sentiment_reply (detail_json 100 [u "anger"]) (detail_json 100 [])
    (detail_json 100 [u "joy"]).

Definition full_sentiment_text : pystr :=
  @json_dumps (table_runtime []) None false full_sentiment_json.

Definition over_sentiment_json : json :=
  sentiment_reply (detail_json 20 []) (detail_json 101 [])
    (detail_json 30 []).

Definition over_sentiment_text : pystr :=
  @json_dumps (table_runtime []) None false over_sentiment_json.

Unset Implicit Arguments.

(** * Properties *)

(** ** Strings and prompts *)

Section Strings.

Lemma pystr_eqb_refl (s : pystr) : pystr_eqb s s = true.
Proof.
  induction s as [|c s IH]; simpl; [reflexivity|].
  now rewrite N.eqb_refl, IH.
Qed.

Lemma pystr_eqb_eq (a b : pystr) : pystr_eqb a b = true <-> a = b.
Proof.
  split; [|intros ->; apply pystr_eqb_refl].
  revert b; induction a as [|x a IH]; intros [|y b]; simpl; try discriminate.
  - reflexivity.
  - intros H. apply andb_true_iff in H as [Hx Hab].
    apply N.eqb_eq in Hx. apply IH in Hab. congruence.
Qed.

(** Each template has the fields that its handler fills, in this order,
    and nothing else that [str.format] would read. *)
Lemma parse_prompt_category :
  exists a b c,
    parse_format (u Service.prompt_category) [] None
    = Ok [Lit a; Field (u "title"); Lit b; Field (u "description"); Lit c].
Proof. do 3 eexists. vm_compute. reflexivity. Qed.

Lemma parse_prompt_sentiment :
  exists a b c d,
    parse_format (u Service.prompt_sentiment) [] None
    = Ok [Lit a; Field (u "title"); Lit b; Field (u "description"); Lit c;
          Field (u "last_news"); Lit d].
Proof. do 4 eexists. vm_compute. reflexivity. Qed.

Lemma parse_prompt_new_event :
  exists a b,
    parse_format (u Service.prompt_new_event) [] None
    = Ok [Lit a; Field (u "news_content"); Lit b].
Proof. do 2 eexists. vm_compute. reflexivity. Qed.

Lemma parse_prompt_verification :
  exists a b c,
    parse_format (u Service.prompt_verification) [] None
    = Ok [Lit a; Field (u "event_info"); Lit b; Field (u "authority_info");
          Lit c].
Proof. do 3 eexists. vm_compute. reflexivity. Qed.


End Strings.

(** ** The Classification Service *)

Section ServiceFacts.
Context {RT : Runtime} {LLM : Service.ChatModel}.
Import Service.

Lemma format_prompt_category (t d : pystr) :
  exists a b c,
    format_prompt prompt_category [(u "title", t); (u "description", d)]
    = Ok (a ++ t ++ b ++ d ++ c).
Proof.
  destruct parse_prompt_category as (a & b & c & E).
  exists a, b, c. unfold format_prompt. rewrite E.
  cbn. now rewrite app_nil_r.
Qed.

Lemma format_prompt_sentiment (t d n : pystr) :
  exists a b c e,
    format_prompt prompt_sentiment
      [(u "title", t); (u "description", d); (u "last_news", n)]
    = Ok (a ++ t ++ b ++ d ++ c ++ n ++ e).
Proof.
  destruct parse_prompt_sentiment as (a & b & c & e & E).
  exists a, b, c, e. unfold format_prompt. rewrite E.
  cbn. now rewrite app_nil_r.
Qed.

Lemma format_prompt_new_event (n : pystr) :
  exists a b,
    format_prompt prompt_new_event [(u "news_content", n)]
    = Ok (a ++ n ++ b).
Proof.
  destruct parse_prompt_new_event as (a & b & E).
  exists a, b. unfold format_prompt. rewrite E.
  cbn. now rewrite app_nil_r.
Qed.

Lemma format_prompt_verification (e a' : pystr) :
  exists a b c,
    parse_format (u prompt_verification) [] None
    = Ok [Lit a; Field (u "event_info"); Lit b; Field (u "authority_info");
          Lit c]
    /\ format_prompt prompt_verification
         [(u "event_info", e); (u "authority_info", a')]
       = Ok (a ++ e ++ b ++ a' ++ c).
Proof.
  destruct parse_prompt_verification as (a & b & c & E).
  exists a, b, c. split; [exact E|]. unfold format_prompt. rewrite E.
  cbn. now rewrite app_nil_r.
Qed.

Lemma kwargs_call_fields {A} (model : string) (fields : json -> option A)
    (obj : json) (body : A) :
  fields obj = Some body ->
  (forall v, fields v <> None -> exists d, v = JObj d) ->
  kwargs_call model fields obj = Ok body.
Proof.
  intros E Hobj. destruct (Hobj obj) as [d ->]; [congruence|].
  unfold kwargs_call. now rewrite E.
Qed.

Lemma kwargs_call_raises {A} (model : string) (fields : json -> option A)
    (obj : json) :
  fields obj = None ->
  kwargs_call model fields obj = Raise (rejected_by_call model obj).
Proof.
  intros E. unfold kwargs_call, rejected_by_call.
  destruct obj; try reflexivity. now rewrite E.
Qed.

(** After the prompt was formatted, a handler is [handled]: what is left
    is a case analysis on the model call, the JSON step and the model
    validation, each of them inside the [try]. *)
Ltac chain_cases :=
  eexists; split; [reflexivity|]; simpl;
  destruct (llm_invoke _) as [reply|e]; simpl; [|reflexivity];
  unfold category_parser, sentiment_parser, pydantic_output_parser,
    json_output_parser;
  destruct (parse_json_markdown reply) as [obj|]; simpl; [|reflexivity].

Lemma fields_of_dict {A} (fields : json -> option A) :
  (forall v,
     match v with JObj _ => True | _ => fields v = None end) ->
  forall v, fields v <> None -> exists d, v = JObj d.
Proof.
  intros H v Hv. specialize (H v).
  destruct v; try contradiction; eauto.
Qed.

Lemma categorize_event_handled (category_input : CategoryInput) :
  handled CategoryOutput_fields (rejected_by_parser "CategoryOutput")
    (categorize_event category_input).
Proof.
  unfold categorize_event, category_chain, chain_invoke.
  destruct (format_prompt_category (title category_input)
              (description category_input)) as (a & b & c & E).
  rewrite E. chain_cases.
  destruct (CategoryOutput_fields obj); reflexivity.
Qed.

Lemma analyze_sentiment_handled (sentiment_input : SentimentInput.t) :
  handled Sentiment_fields (rejected_by_parser "Sentiment")
    (analyze_sentiment sentiment_input).
Proof.
  unfold analyze_sentiment, sentiment_chain, chain_invoke.
  destruct (format_prompt_sentiment (SentimentInput.title sentiment_input)
              (SentimentInput.description sentiment_input)
              (SentimentInput.last_news sentiment_input))
    as (a & b & c & d & E).
  rewrite E. chain_cases.
  destruct (Sentiment_fields obj); reflexivity.
Qed.

Lemma create_new_event_handled (new_event_input : NewEventInput) :
  handled NewEventOutput_fields (rejected_by_call "NewEventOutput")
    (create_new_event_endpoint new_event_input).
Proof.
  unfold create_new_event_endpoint, new_event_chain, chain_invoke.
  destruct (format_prompt_new_event (news_content new_event_input))
    as (a & b & E).
  rewrite E. chain_cases.
  destruct (NewEventOutput_fields obj) as [body|] eqn:F.
  - rewrite (kwargs_call_fields "NewEventOutput" _ obj body F);
      [reflexivity|].
    apply fields_of_dict. now intros [].
  - now rewrite (kwargs_call_raises "NewEventOutput" _ _ F).
Qed.

Lemma verify_event_information_handled
    (verification_input : VerificationInput) :
  handled VerificationOutput_fields (rejected_by_call "VerificationOutput")
    (verify_event_information_endpoint verification_input).
Proof.
  unfold verify_event_information_endpoint, verification_chain, chain_invoke.
  destruct (format_prompt_verification
              (json_dumps None false (JObj (event_info verification_input)))
              (authority_info verification_input))
    as (a & b & c & _ & E).
  rewrite E. chain_cases.
  destruct (VerificationOutput_fields obj) as [body|] eqn:F.
  - rewrite (kwargs_call_fields "VerificationOutput" _ obj body F);
      [reflexivity|].
    apply fields_of_dict. now intros [].
  - now rewrite (kwargs_call_raises "VerificationOutput" _ _ F).
Qed.

Lemma required_some {A} (d : dict) (name : string)
    (validate : json -> option A) (a : A) :
  required d name validate = Some a ->
  exists v, dict_get (u name) d = Some v /\ validate v = Some a.
Proof.
  unfold required. destruct (dict_get (u name) d) as [v|]; [|discriminate].
  eauto.
Qed.

Lemma SentimentDetail_fields_range (v : json) (d : SentimentDetail) :
  SentimentDetail_fields v = Some d -> in_0_100 (strength d).
Proof.
  unfold SentimentDetail_fields, in_0_100.
  destruct v; try discriminate.
  destruct (required fields "strength" validate_int) as [n|];
    [|discriminate].
  destruct (required fields "detectedEmotions" validate_list_str) as [es|];
    [|discriminate].
  destruct ((0 <=? n)%Z && (n <=? 100)%Z) eqn:R; [|discriminate].
  intros [= <-]. simpl.
  apply andb_true_iff in R as [R1 R2]. lia.
Qed.

Lemma Sentiment_fields_range (v : json) (s : Sentiment) :
  Sentiment_fields v = Some s ->
  in_0_100 (strength (agitation s))
  /\ in_0_100 (strength (neutral s))
  /\ in_0_100 (strength (positive s)).
Proof.
  unfold Sentiment_fields. destruct v; try discriminate.
  destruct (required fields "agitation" SentimentDetail_fields) as [a|] eqn:A;
    [|discriminate].
  destruct (required fields "neutral" SentimentDetail_fields) as [n|] eqn:N;
    [|discriminate].
  destruct (required fields "positive" SentimentDetail_fields) as [p|] eqn:P;
    [|discriminate].
  intros [= <-]. simpl.
  apply required_some in A as (? & _ & A), N as (? & _ & N), P as (? & _ & P).
  repeat split; eapply SentimentDetail_fields_range; eassumption.
Qed.

Lemma handled_returned {A} (fields : json -> option A)
    (mismatch : json -> exn) (run : response A * list pystr) (body : A) :
  handled fields mismatch run -> fst run = Returned body ->
  exists obj, fields obj = Some body.
Proof.
  intros (prompt & _ & H) E. rewrite E in H.
  destruct (llm_invoke prompt) as [reply|e]; [|discriminate].
  destruct (parse_json_markdown reply) as [obj|]; [|discriminate].
  destruct (fields obj) as [b|] eqn:F; [|discriminate].
  exists obj. congruence.
Qed.

Lemma CategoryOutput_fields_category (obj : json) (body : CategoryOutput) :
  CategoryOutput_fields obj = Some body ->
  exists d, obj = JObj d /\ dict_get (u "category") d = Some (JStr (category body)).
Proof.
  unfold CategoryOutput_fields. destruct obj; try discriminate.
  destruct (required fields "category" validate_str) as [c|] eqn:C;
    [|discriminate].
  destruct (required fields "confidence" validate_float) as [f|];
    [|discriminate].
  intros [= <-]. simpl. exists fields. split; [reflexivity|].
  apply required_some in C as (v & G & V). rewrite G.
  destruct v; try discriminate. now injection V as ->.
Qed.

End ServiceFacts.

(** C7. Every handler of the service encloses its whole body in one
    [try]: whatever fails after the request was accepted (the model call
    raises, the reply is not JSON, the JSON does not match the output
    model) is answered with status 500 and the [str] of that error as
    detail; the model is called once, and a body, when there is one, is
    the whole validated output. *)
Theorem handlers_answer_500
    (RT : Runtime) (LLM : Service.ChatModel)
    (category_input : CategoryInput)
    (sentiment_input : Service.SentimentInput.t)
    (new_event_input : Service.NewEventInput)
    (verification_input : Service.VerificationInput) :
  Service.handled CategoryOutput_fields
    (Service.rejected_by_parser "CategoryOutput")
    (Service.categorize_event category_input)
  /\ Service.handled Service.Sentiment_fields
       (Service.rejected_by_parser "Sentiment")
       (Service.analyze_sentiment sentiment_input)
  /\ Service.handled Service.NewEventOutput_fields
       (Service.rejected_by_call "NewEventOutput")
       (Service.create_new_event_endpoint new_event_input)
  /\ Service.handled Service.VerificationOutput_fields
       (Service.rejected_by_call "VerificationOutput")
       (Service.verify_event_information_endpoint verification_input).
Proof.
  repeat split.
  - apply categorize_event_handled.
  - apply analyze_sentiment_handled.
  - apply create_new_event_handled.
  - apply verify_event_information_handled.
Qed.

(** C8. When [analyze_sentiment] returns a body, each of the three
    strengths is an integer between 0 and 100: the reply went through
    [SentimentDetail], whose [strength] field declares [ge=0, le=100]. *)
Theorem sentiment_strengths_in_range
    (RT : Runtime) (LLM : Service.ChatModel)
    (sentiment_input : Service.SentimentInput.t) (body : Service.Sentiment) :
  fst (Service.analyze_sentiment sentiment_input) = Service.Returned body ->
  Service.in_0_100 (Service.strength (Service.agitation body))
  /\ Service.in_0_100 (Service.strength (Service.neutral body))
  /\ Service.in_0_100 (Service.strength (Service.positive body)).
Proof.
  intros E.
  destruct (handled_returned Service.Sentiment_fields
              (Service.rejected_by_parser "Sentiment")
              (Service.analyze_sentiment sentiment_input) body)
    as [obj F].
  - apply analyze_sentiment_handled.
  - exact E.
  - exact (Sentiment_fields_range obj body F).
Qed.

Lemma sentiment_strengths_in_range_witness :
  let RT := table_runtime [(sentiment_text, sentiment_json)] in
  let LLM := constant_model (Ok sentiment_text) in
  fst (Service.analyze_sentiment sentiment_input_A)
  = Service.Returned sentiment_body
  /\ Service.in_0_100 20 /\ Service.in_0_100 50 /\ Service.in_0_100 30.
Proof.
  intros RT LLM.
  assert (E : fst (Service.analyze_sentiment sentiment_input_A)
              = Service.Returned sentiment_body)
    by (vm_compute; reflexivity).
  split; [exact E|].
  exact (sentiment_strengths_in_range RT LLM sentiment_input_A
           sentiment_body E).
Defined.

(** C2, as stated, fails. The reply whose category is the empty string
    and whose confidence is 7.5 is well-formed JSON and matches
    [CategoryOutput]; the endpoint returns it as it is, with an empty
    category and a confidence outside of [0.0, 1.0]. *)
Lemma categorize_event_returns_unchecked_reply :
  let RT := table_runtime [(unchecked_text, unchecked_json)] in
  let LLM := constant_model (Ok unchecked_text) in
  parse_json_markdown unchecked_text = Some unchecked_json
  /\ fst (Service.categorize_event category_input_A)
     = Service.Returned {| category := []; confidence := float_7_5 |}
  /\ Service.in_unit_interval float_7_5 = false.
Proof. vm_compute. repeat split; reflexivity. Qed.

(** C2, amended.  When the reply of the model is read as a JSON document,
    [categorize_event] answers by the shape of that document alone: a
    document that [CategoryOutput] accepts is returned, and its category
    is the string that the document holds, empty or not; any other
    document is answered with status 500. *)
Theorem categorize_event_returns_validated_reply
    (RT : Runtime) (LLM : Service.ChatModel)
    (category_input : CategoryInput) (prompt reply : pystr) (obj : json) :
  snd (Service.categorize_event category_input) = [prompt] ->
  Service.llm_invoke prompt = Ok reply ->
  parse_json_markdown reply = Some obj ->
  match CategoryOutput_fields obj with
  | Some body =>
      fst (Service.categorize_event category_input) = Service.Returned body
      /\ exists d,
           obj = JObj d
           /\ dict_get (u "category") d = Some (JStr (category body))
  | None =>
      fst (Service.categorize_event category_input)
      = Service.Raised
          (Service.server_error
             (Service.rejected_by_parser "CategoryOutput" obj))
  end.
Proof.
  intros S L P.
  unfold Service.categorize_event, Service.category_chain,
    Service.chain_invoke in *.
  destruct (format_prompt_category (title category_input)
              (description category_input)) as (a & b & c & E).
  rewrite E in *. simpl in S. injection S as S. rewrite S, L. simpl.
  unfold Service.category_parser, Service.pydantic_output_parser,
    Service.json_output_parser.
  rewrite P. simpl.
  destruct (CategoryOutput_fields obj) as [body|] eqn:F; simpl.
  - split; [reflexivity|]. now apply CategoryOutput_fields_category.
  - reflexivity.
Qed.

Lemma categorize_event_returns_validated_reply_witness :
  let RT := table_runtime [(traffic_text, traffic_json)] in
  let LLM := constant_model (Ok traffic_text) in
  fst (Service.categorize_event category_input_A)
  = Service.Returned {| category := u "Traffic"; confidence := float_0_9 |}.
Proof.
  intros RT LLM.
  pose proof (categorize_event_returns_validated_reply RT LLM
                category_input_A
                (hd [] (snd (Service.categorize_event category_input_A)))
                traffic_text traffic_json) as H.
  assert (S : snd (Service.categorize_event category_input_A)
              = [hd [] (snd (Service.categorize_event category_input_A))])
    by (vm_compute; reflexivity).
  assert (P : parse_json_markdown traffic_text = Some traffic_json)
    by (vm_compute; reflexivity).
  specialize (H S eq_refl P).
  assert (F : CategoryOutput_fields traffic_json
              = Some {| category := u "Traffic"; confidence := float_0_9 |})
    by (vm_compute; reflexivity).
  rewrite F in H. exact (proj1 H).
Defined.


(** ** The Batch Annotator *)

Import Annotator.

Section AnnotatorFacts.
Context {RT : Runtime} {SRV : CategorizeServer}.

Lemma log_log (w : world) (es es' : list effect) :
  log (log w es) es' = log w (es ++ es').
Proof. unfold log; simpl. now rewrite app_assoc. Qed.

Lemma log_nil (w : world) : log w [] = w.
Proof. destruct w; unfold log; simpl. now rewrite app_nil_r. Qed.

Lemma count_posts_log (w : world) (es : list effect) :
  count_posts (log w es)
  = count_posts w + List.length (filter is_post es).
Proof.
  unfold count_posts, log; simpl.
  now rewrite filter_app, length_app.
Qed.

(** An event gives a request exactly when it is a dict with a [str] title
    and a [str] description. *)
Lemma request_of_event_record (event : json) :
  is_event_record event = true ->
  exists d t ds,
    event = JObj d
    /\ dict_get (u "title") d = Some (JStr t)
    /\ dict_get (u "description") d = Some (JStr ds)
    /\ request_of event = Ok {| title := t; description := ds |}.
Proof.
  unfold is_event_record, request_of, getitem.
  destruct event as [| | | | |?|d]; try discriminate.
  destruct (dict_get (u "title") d) as [[| | | |t| |]|] eqn:T;
    try discriminate.
  destruct (dict_get (u "description") d) as [[| | | |ds| |]|] eqn:D;
    try discriminate.
  intros _. exists d, t, ds. simpl. repeat split; auto.
Qed.

Lemma request_of_not_event_record (event : json) :
  is_event_record event = false -> exists e, request_of event = Raise e.
Proof.
  unfold is_event_record, request_of, getitem.
  destruct event as [| | | | |?|d]; try (eexists; reflexivity).
  destruct (dict_get (u "title") d) as [t|]; [|eexists; reflexivity].
  destruct (dict_get (u "description") d) as [ds|];
    [|destruct t; eexists; reflexivity].
  destruct t, ds; try discriminate; eexists; reflexivity.
Qed.

Lemma request_of_ok (event : json) (category_input : CategoryInput) :
  request_of event = Ok category_input ->
  is_event_record event = true
  /\ getitem event "title" = Ok (JStr (title category_input)).
Proof.
  intros E. destruct (is_event_record event) eqn:R.
  - split; [reflexivity|].
    destruct (request_of_event_record event R)
      as (d & t & ds & -> & T & D & Q).
    rewrite Q in E. injection E as <-. unfold getitem. now rewrite T.
  - destruct (request_of_not_event_record event R) as [e Q]. congruence.
Qed.

(** What the [try] block returns on success is the one-key dict of
    line 35. *)
Lemma read_response_ok (response : Response) (info : dict) :
  read_response response = Ok info ->
  exists c, info = [(u "category", JStr c)].
Proof.
  unfold read_response.
  destruct (raise_for_status response); [|discriminate]. simpl.
  destruct (response_json response) as [body|]; [|discriminate]. simpl.
  destruct (kwargs_call "CategoryOutput" CategoryOutput_fields body)
    as [out|]; [|discriminate].
  simpl. intros [= <-]. eauto.
Qed.

Lemma answer_at_ok (n : nat) (url : pystr) (category_input : CategoryInput)
    (info : dict) :
  answer_at n url category_input = Ok info ->
  exists c, info = [(u "category", JStr c)].
Proof.
  unfold answer_at.
  destruct (http_post n url _) as [response|]; [|discriminate].
  apply read_response_ok.
Qed.

(** One call of [categorize_event]: an event without a request raises
    before anything is sent; otherwise the request is sent, and the call
    returns the dict of the answer or, after printing, [None]. *)
Lemma categorize_event_run (url : pystr) (event : json) (w : world) :
  categorize_event url event w
  = match request_of event with
    | Raise e => (Raise e, w)
    | Ok category_input =>
        (Ok match answer_at (count_posts w) url category_input with
            | Ok info => Some info
            | Raise _ => None
            end,
         log w (turn_effects (count_posts w) url event))
    end.
Proof.
  unfold categorize_event, turn_effects.
  unfold bind at 1. unfold lift at 1.
  destruct (request_of event) as [category_input|e] eqn:Q; [|reflexivity].
  destruct (request_of_ok event category_input Q) as [_ T].
  unfold try_catch, answer_at, bind, post, lift, ret, print, emit, log.
  simpl.
  destruct (http_post (count_posts w) url _) as [response|e]; simpl.
  - destruct (read_response response) as [info|e]; simpl; [reflexivity|].
    unfold failure_line.
    destruct (is_httpx_HTTPError e); rewrite T; simpl;
      now rewrite <- app_assoc.
  - unfold failure_line.
    destruct (is_httpx_HTTPError e); rewrite T; simpl;
      now rewrite <- app_assoc.
Qed.

Lemma turn_effects_posts (n : nat) (url : pystr) (event : json) :
  is_event_record event = true ->
  List.length (filter is_post (turn_effects n url event)) = 1.
Proof.
  intros R. unfold turn_effects.
  destruct (request_of_event_record event R) as (d & t & ds & _ & _ & _ & ->).
  simpl. now destruct (answer_at n url _).
Qed.

Lemma turn_effects_no_file (n : nat) (url : pystr) (event : json) :
  Forall (fun e => exists x y, e = Post x y \/ e = Print x)
    (turn_effects n url event).
Proof.
  unfold turn_effects. destruct (request_of event); [|constructor].
  constructor; [eauto|].
  destruct (answer_at n url a); repeat constructor.
  exists (failure_line a e), JNull. now right.
Qed.



(** The loop over events that all give a request: it returns, whatever
    the server answers. *)
Lemma for_event_in_run (url : pystr) (events updated : list json)
    (w : world) :
  forallb is_event_record events = true ->
  for_event_in url events updated w
  = (Ok (updated ++ annotate_from (count_posts w) url events),
     log w (loop_effects (count_posts w) url events)).
Proof.
  revert updated w; induction events as [|event rest IH];
    intros updated w R; cbn [for_event_in annotate_from loop_effects].
  - unfold ret. now rewrite app_nil_r, log_nil.
  - cbn [forallb] in R. apply andb_true_iff in R as [R1 R2].
    unfold bind at 1. rewrite categorize_event_run.
    destruct (request_of_event_record event R1)
      as (d & t & ds & -> & _ & _ & Q).
    unfold annotate. rewrite Q.
    set (n := count_posts w).
    assert (N : count_posts (log w (turn_effects n url (JObj d))) = S n).
    { rewrite count_posts_log, turn_effects_posts by assumption.
      subst n. lia. }
    destruct (answer_at n url _) as [info|e] eqn:A.
    + destruct (answer_at_ok _ _ _ _ A) as [c ->]. unfold truthy.
      rewrite IH by assumption. rewrite N, log_log, <- app_assoc.
      reflexivity.
    + unfold truthy.
      rewrite IH by assumption. rewrite N, log_log, <- app_assoc.
      reflexivity.
Qed.




(** What line 29 can raise is not an exception that
    [process_and_update_events] handles. *)
Lemma request_of_raises (event : json) (e : exn) :
  request_of event = Raise e ->
  is_FileNotFoundError e = false /\ is_JSONDecodeError e = false.
Proof.
  unfold request_of, getitem, CategoryInput_new.
  destruct event as [| | | | |?|d]; try (intros [= <-]; split; reflexivity).
  destruct (dict_get (u "title") d) as [t|];
    [|intros [= <-]; split; reflexivity].
  destruct (dict_get (u "description") d) as [ds|];
    [|intros [= <-]; split; reflexivity].
  simpl. destruct (validate_str t), (validate_str ds);
    intros [= <-]; split; reflexivity.
Qed.

Lemma posts_and_prints_write_nothing (es : list effect) :
  Forall (fun e => exists x y, e = Post x y \/ e = Print x) es ->
  filter is_file_write es = [].
Proof.
  induction 1 as [|e l (x & y & [-> | ->]) _ IH]; simpl; auto.
Qed.

Lemma for_event_in_raises (url : pystr) (events updated : list json)
    (w : world) :
  forallb is_event_record events = false ->
  exists e w',
    for_event_in url events updated w = (Raise e, w')
    /\ is_FileNotFoundError e = false /\ is_JSONDecodeError e = false
    /\ disk w' = disk w
    /\ filter is_file_write (trace w') = filter is_file_write (trace w).
Proof.
  revert updated w; induction events as [|event rest IH];
    intros updated w R; cbn [for_event_in forallb] in *; [discriminate|].
  unfold bind at 1. rewrite categorize_event_run.
  destruct (is_event_record event) eqn:R1.
  - destruct (request_of_event_record event R1)
      as (d & t & ds & -> & _ & _ & Q).
    rewrite Q. simpl in R.
    assert (W : forall updated',
               exists e w',
                 for_event_in url rest updated'
                   (log w (turn_effects (count_posts w) url (JObj d)))
                 = (Raise e, w')
                 /\ is_FileNotFoundError e = false
                 /\ is_JSONDecodeError e = false
                 /\ disk w' = disk w
                 /\ filter is_file_write (trace w')
                    = filter is_file_write (trace w)).
    { intros updated'.
      destruct (IH updated'
                  (log w (turn_effects (count_posts w) url (JObj d))) R)
        as (e & w' & E & F1 & F2 & D & T).
      exists e, w'. repeat split; try assumption.
      rewrite T. unfold log; simpl. rewrite filter_app.
      rewrite (posts_and_prints_write_nothing _
                 (turn_effects_no_file (count_posts w) url (JObj d))).
      now rewrite app_nil_r. }
    destruct (answer_at _ _ _) as [info|e0] eqn:A.
    + destruct (answer_at_ok _ _ _ _ A) as [c ->]. unfold truthy. apply W.
    + unfold truthy. apply W.
  - destruct (request_of_not_event_record event R1) as [e Q].
    rewrite Q. exists e, w. destruct (request_of_raises event e Q).
    repeat split; assumption.
Qed.

Lemma firstn_length_app {A} (s t : list A) :
  firstn (List.length s) (s ++ t) = s.
Proof. induction s as [|x s IH]; simpl; [reflexivity|]. now rewrite IH. Qed.

(** Lines 67 to 70 on any open file: whatever the file held, it holds the
    written text and nothing more. *)
Lemma overwrite_from_start (data : pystr) (w : world) (content : pystr) :
  disk w = Some content ->
  (seek 0 ;; write data ;; truncate)%io w
  = (Ok tt,
     {| disk := Some data; cursor := List.length data;
        trace := trace w ++ [Seek 0; Write data; Truncate] |}).
Proof.
  intros D. unfold bind, seek, write, truncate. cbn [disk cursor trace].
  rewrite D. cbn [firstn Nat.add List.app disk cursor trace].
  rewrite firstn_length_app, <- !app_assoc. reflexivity.
Qed.

Lemma get_default_dict (data : json) (key : string) (default events : json) :
  get_default data key default = Ok events -> exists d, data = JObj d.
Proof. destruct data; try discriminate. eauto. Qed.

Lemma bind_ok {A B} (m : M A) (f : A -> M B) (w w' : world) (a : A) :
  m w = (Ok a, w') -> bind m f w = f a w'.
Proof. intros E. unfold bind. now rewrite E. Qed.

Lemma bind_raise {A B} (m : M A) (f : A -> M B) (w w' : world) (e : exn) :
  m w = (Raise e, w') -> bind m f w = (Raise e, w').
Proof. intros E. unfold bind. now rewrite E. Qed.

Lemma json_load_start (content : pystr) (data : json) :
  json_loads content = Some data ->
  json_load (start (Some content)) = (Ok data, loaded content).
Proof.
  intros L. unfold json_load, start, loaded; cbn [disk cursor trace skipn].
  now rewrite L.
Qed.

(** The run on a file that exists and holds JSON, in terms of the loop. *)
Lemma process_after_load (url path content : pystr) (data events : json)
    (items : list json) :
  json_loads content = Some data ->
  get_default data "events" (JArr []) = Ok events ->
  py_iter events = Ok items ->
  process_and_update_events url path (start (Some content))
  = match for_event_in url items [] (loaded content) with
    | (Ok updated, w) =>
        match setitem data "events" (JArr updated) with
        | Ok data' =>
            (seek 0 ;; write (json_dumps (Some 4) false data') ;;
             truncate)%io w
        | Raise e => (Raise e, w)
        end
    | (Raise e, w) =>
        if is_FileNotFoundError e then
          print (u "Error: " ++ path ++ u " not found.") w
        else if is_JSONDecodeError e then
          print (u "Error: Invalid JSON format in " ++ path ++ u ".") w
        else (Raise e, w)
    end.
Proof.
  intros L G I.
  destruct (get_default_dict _ _ _ _ G) as [d ->].
  unfold process_and_update_events, try_catch.
  rewrite (bind_ok _ _ (start (Some content)) (start (Some content)) tt)
    by reflexivity.
  rewrite (bind_ok _ _ _ _ _ (json_load_start content _ L)).
  rewrite (bind_ok _ _ (loaded content) (loaded content) events)
    by (unfold lift; now rewrite G).
  rewrite (bind_ok _ _ (loaded content) (loaded content) items)
    by (unfold lift; now rewrite I).
  destruct (for_event_in url items [] (loaded content))
    as [[updated|e] w] eqn:F.
  - rewrite (bind_ok _ _ _ _ _ F).
    rewrite (bind_ok _ _ w w (JObj (dict_set (u "events") (JArr updated) d)))
      by reflexivity.
    cbn [setitem].
    match goal with
    | |- match ?run with _ => _ end = _ =>
        destruct run as [[[]|e] w'] eqn:E
    end; try reflexivity.
    revert E. unfold bind, seek, write, truncate.
    cbn [disk cursor trace].
    destruct (disk w); cbn [disk cursor trace];
      [discriminate | intros [= <- <-]; reflexivity].
  - rewrite (bind_raise _ _ _ _ _ F).
    destruct (is_FileNotFoundError e); [reflexivity|].
    destruct (is_JSONDecodeError e); reflexivity.
Qed.

(** A run over events that all give a request: it reaches the write. *)
Lemma process_run (url path content : pystr) (data events : json)
    (items : list json) :
  json_loads content = Some data ->
  get_default data "events" (JArr []) = Ok events ->
  py_iter events = Ok items ->
  forallb is_event_record items = true ->
  exists d,
    data = JObj d
    /\ for_event_in url items [] (loaded content)
       = (Ok (annotate_from 0 url items),
          log (loaded content) (loop_effects 0 url items))
    /\ let s :=
         json_dumps (Some 4) false
           (JObj (dict_set (u "events") (JArr (annotate_from 0 url items)) d))
       in
       process_and_update_events url path (start (Some content))
       = (Ok tt,
          {| disk := Some s; cursor := List.length s;
             trace := loop_effects 0 url items
                        ++ [Seek 0; Write s; Truncate] |}).
Proof.
  intros L G I R.
  destruct (get_default_dict _ _ _ _ G) as [d ->]. exists d.
  split; [reflexivity|].
  pose proof (for_event_in_run url items [] (loaded content) R) as F.
  change (count_posts (loaded content)) with 0 in F. simpl app in F.
  split; [exact F|]. cbv zeta.
  rewrite (process_after_load url path content _ _ items L G I), F.
  cbn [setitem].
  erewrite overwrite_from_start by reflexivity. reflexivity.
Qed.

Lemma dict_get_set_same (k : pystr) (v : json) (d : dict) :
  dict_get k (dict_set k v d) = Some v.
Proof.
  induction d as [|[k' v'] d IH]; simpl.
  - now rewrite pystr_eqb_refl.
  - destruct (pystr_eqb k k') eqn:E; simpl; rewrite E; [reflexivity|exact IH].
Qed.

Lemma dict_get_set_other (key k : pystr) (v : json) (d : dict) :
  pystr_eqb key k = false ->
  dict_get key (dict_set k v d) = dict_get key d.
Proof.
  intros N. induction d as [|[k' v'] d IH]; simpl.
  - now rewrite N.
  - destruct (pystr_eqb k k') eqn:E; simpl.
    + apply pystr_eqb_eq in E. subst k'. now rewrite N.
    + now rewrite IH.
Qed.

(** The failures listed are all the ways, and the only ways, in which the
    [try] block raises. *)
Lemma categorization_fails_raises (reply : result Response) :
  categorization_fails reply <-> exists e, rbind reply read_response = Raise e.
Proof.
  split.
  - intros [e|r S|r J|r v J F]; simpl.
    + eauto.
    + unfold read_response, raise_for_status. rewrite S. simpl. eauto.
    + unfold read_response, response_json. rewrite J.
      destruct (raise_for_status r); simpl; eauto.
    + unfold read_response, response_json. rewrite J.
      destruct (raise_for_status r); simpl; eauto.
      unfold kwargs_call. rewrite F. destruct v; simpl; eauto.
  - intros [e E]. destruct reply as [r|e0]; [|constructor].
    simpl in E. unfold read_response in E.
    destruct (raise_for_status r) eqn:S; simpl in E.
    + destruct (json_loads (text r)) as [v|] eqn:J.
      * apply (shape_mismatch r J).
        unfold response_json in E. rewrite J in E. simpl in E.
        destruct (CategoryOutput_fields v) eqn:F; [|reflexivity].
        exfalso. unfold kwargs_call in E. rewrite F in E.
        unfold CategoryOutput_fields in F.
        destruct v; try discriminate.
      * now apply malformed_body.
    + apply bad_status. unfold raise_for_status in S.
      destruct (_ && _); [discriminate|reflexivity].
Qed.

(** A run that returns on a file holding an [events] list went through the
    whole list and wrote the document with each event annotated. *)
Lemma returned_run (url path content : pystr) (d : dict)
    (events : list json) (w' : world) :
  json_loads content = Some (JObj d) ->
  dict_get (u "events") d = Some (JArr events) ->
  process_and_update_events url path (start (Some content)) = (Ok tt, w') ->
  forallb is_event_record events = true
  /\ disk w'
     = Some (json_dumps (Some 4) false
               (JObj (dict_set (u "events")
                        (JArr (annotate_from 0 url events)) d))).
Proof.
  intros L G P.
  assert (G' : get_default (JObj d) "events" (JArr []) = Ok (JArr events))
    by (unfold get_default; now rewrite G).
  assert (I : py_iter (JArr events) = Ok events) by reflexivity.
  destruct (forallb is_event_record events) eqn:R.
  - split; [reflexivity|].
    destruct (process_run url path content _ _ events L G' I R)
      as (d' & [= <-] & _ & E).
    cbv zeta in E. rewrite E in P. now injection P as <-.
  - exfalso.
    destruct (for_event_in_raises url events [] (loaded content) R)
      as (e & w1 & F & N1 & N2 & _).
    rewrite (process_after_load url path content _ _ events L G' I) in P.
    rewrite F, N1, N2 in P. discriminate.
Qed.



(** The run on a file that is absent or is not JSON. *)
Lemma process_fatal (url path : pystr) (file : option pystr) :
  fatal file ->
  process_and_update_events url path (start file)
  = (Ok tt,
     {| disk := file;
        cursor := match file with
                  | Some content => List.length content
                  | None => 0
                  end;
        trace := [Print (fatal_line path file)] |}).
Proof.
  intros F. destruct file as [content|]; simpl in F.
  - unfold process_and_update_events, try_catch.
    rewrite (bind_ok _ _ (start (Some content)) (start (Some content)) tt)
      by reflexivity.
    rewrite (bind_raise _ _ (start (Some content)) (loaded content)
               (JSONDecodeError content)).
    + reflexivity.
    + unfold json_load, start, loaded; cbn [disk cursor trace skipn].
      now rewrite F.
  - reflexivity.
Qed.

End AnnotatorFacts.

(** The texts of the examples are the JSON texts of their documents. *)
Example example_texts :
  let RT := table_runtime [] in
  json_dumps None false file_A_json = file_A_text
  /\ json_dumps None false file_untitled_json = file_untitled_text
  /\ json_dumps None false traffic_json = traffic_text
  /\ json_dumps None false unchecked_json = unchecked_text.
Proof. vm_compute. repeat split; reflexivity. Qed.

(** The first scenario of the spec: the categorize endpoint answers
    [Traffic] with a confidence of 0.9, and after the run the event has a
    [category] and no [confidence]. *)
Example round_trip_scenario :
  let RT :=
    table_runtime [(file_A_text, file_A_json); (traffic_text, traffic_json)] in
  let SRV :=
    constant_server
      (Ok {| status_code := 200; text := traffic_text |})
  in
  disk (snd (main (start (Some file_A_text))))
  = Some file_A_annotated_text.
Proof. vm_compute. reflexivity. Qed.












(** C10, as stated, fails. On the file whose first event has no title
    the exception of line 29 leaves [process_and_update_events] and
    [main]: the run ends without the line of line 84. *)
Lemma untitled_event_run_prints_no_success_line :
  let RT := table_runtime [(file_untitled_text, file_untitled_json)] in
  let SRV :=
    constant_server
      (Ok {| status_code := 200; text := traffic_text |})
  in
  fst (main (start (Some file_untitled_text)))
  = Raise (KeyError (u "title"))
  /\ trace (snd (main (start (Some file_untitled_text))))
     = [].
Proof. vm_compute. split; reflexivity. Qed.

(** C10, amended. [main] prints the line of line 84 whenever
    [process_and_update_events] returns, without looking at what it did:
    after a run that wrote the file, and as well after a missing file or
    a text that is not JSON, where nothing was written. An exception that
    leaves [process_and_update_events] leaves [main] before the line. *)
Theorem success_line_follows_every_return
    (RT : Runtime) (SRV : CategorizeServer) (w : world) :
  main w
  = match process_and_update_events endpoint_url json_filepath w with
    | (Ok _, w') => (Ok tt, log w' [Print success_line])
    | (Raise e, w') => (Raise e, w')
    end
  /\ forall file : option pystr,
       fatal file ->
       exists w',
         main (start file) = (Ok tt, w')
         /\ disk w' = file
         /\ trace w'
            = [Print (fatal_line json_filepath file); Print success_line].
Proof.
  split.
  - unfold main, bind.
    destruct (process_and_update_events endpoint_url json_filepath w)
      as [[[]|e] w']; reflexivity.
  - intros file F. unfold main.
    rewrite (bind_ok _ _ _ _ _
               (process_fatal endpoint_url json_filepath file F)).
    eexists. split; [reflexivity|]. split; reflexivity.
Qed.

Lemma success_line_follows_every_return_witness :
  let RT := table_runtime [] in
  let SRV := constant_server (Raise (TransportError (u "refused"))) in
  exists w' : world,
    main (start None) = (Ok tt, w')
    /\ disk w' = None
    /\ trace w'
       = [Print (u "Error: data.json not found.");
          Print
            (u "Successfully added 'category' field to data.json.")].
Proof.
  intros RT SRV.
  exact (proj2 (@success_line_follows_every_return RT SRV (start None))
           None I).
Defined.

(** * Further properties *)

(** ** The Batch Annotator: edges of the input document *)

Section AnnotatorEdges.
Context {RT : Runtime} {SRV : CategorizeServer}.


Lemma dict_set_present (k : pystr) (v : json) (d : dict) :
  dict_get k d = Some v -> dict_set k v d = d.
Proof.
  induction d as [|[k' v'] d IH]; simpl; [discriminate|].
  destruct (pystr_eqb k k'); [now intros [= ->]|].
  intros E. now rewrite IH.
Qed.

Lemma dict_set_twice (k : pystr) (v : json) (d : dict) :
  dict_set k v (dict_set k v d) = dict_set k v d.
Proof. apply dict_set_present, dict_get_set_same. Qed.

Lemma dict_keys_set (k : pystr) (v : json) (d : dict) :
  dict_keys (dict_set k v d)
  = match dict_get k d with
    | Some _ => dict_keys d
    | None => dict_keys d ++ [k]
    end.
Proof.
  unfold dict_keys. induction d as [|[k' v'] d IH]; simpl; [reflexivity|].
  destruct (pystr_eqb k k'); simpl; [reflexivity|].
  rewrite IH. now destruct (dict_get k d).
Qed.




End AnnotatorEdges.

Section AnnotatorEdges2.
Context {RT : Runtime} {SRV : CategorizeServer}.

(** The run on a file that holds JSON, up to what [data.get] and the
    [for] statement raise. *)
Lemma process_raises_before_loop (url path content : pystr) (data : json)
    (e : exn) :
  json_loads content = Some data ->
  rbind (get_default data "events" (JArr [])) py_iter = Raise e ->
  is_FileNotFoundError e = false ->
  is_JSONDecodeError e = false ->
  process_and_update_events url path (start (Some content))
  = (Raise e, loaded content).
Proof.
  intros L E N1 N2.
  unfold process_and_update_events, try_catch.
  rewrite (bind_ok _ _ (start (Some content)) (start (Some content)) tt)
    by reflexivity.
  rewrite (bind_ok _ _ _ _ _ (json_load_start content _ L)).
  destruct (get_default data "events" (JArr [])) as [events|e0] eqn:G.
  - rewrite (bind_ok _ _ (loaded content) (loaded content) events)
      by reflexivity.
    simpl in E.
    rewrite (bind_raise _ _ (loaded content) (loaded content) e)
      by (unfold lift; now rewrite E).
    now rewrite N1, N2.
  - simpl in E. injection E as ->.
    rewrite (bind_raise _ _ (loaded content) (loaded content) e)
      by reflexivity.
    now rewrite N1, N2.
Qed.




Lemma request_of_annotate (n : nat) (url : pystr) (event : json) :
  request_of (annotate n url event) = request_of event.
Proof.
  unfold annotate.
  destruct (request_of event) as [category_input|e] eqn:Q; [|exact Q].
  destruct (answer_at n url category_input) as [info|e] eqn:A; [|exact Q].
  destruct event as [| | | | | |fields]; try exact Q.
  destruct (answer_at_ok _ _ _ _ A) as [c ->].
  change (dict_merge fields [(u "category", JStr c)])
    with (dict_set (u "category") (JStr c) fields).
  rewrite <- Q. unfold request_of, getitem.
  now rewrite !dict_get_set_other by reflexivity.
Qed.

Lemma annotate_twice (n : nat) (url : pystr) (event : json) :
  annotate n url (annotate n url event) = annotate n url event.
Proof.
  unfold annotate at 1. rewrite request_of_annotate.
  destruct (request_of event) as [category_input|e] eqn:Q; [|reflexivity].
  destruct (answer_at n url category_input) as [info|e] eqn:A.
  - unfold annotate. rewrite Q, A.
    destruct event as [| | | | | |fields]; try reflexivity.
    destruct (answer_at_ok _ _ _ _ A) as [c ->].
    unfold dict_merge. cbn [fold_left fst snd].
    now rewrite dict_set_twice.
  - now destruct (annotate n url event).
Qed.

Lemma annotate_from_twice (n : nat) (url : pystr) (events : list json) :
  annotate_from n url (annotate_from n url events)
  = annotate_from n url events.
Proof.
  revert n; induction events as [|event rest IH]; intros n; simpl;
    [reflexivity|]. now rewrite annotate_twice, IH.
Qed.

Lemma annotate_event_record (n : nat) (url : pystr) (event : json) :
  is_event_record (annotate n url event) = is_event_record event.
Proof.
  destruct (is_event_record event) eqn:R.
  - destruct (request_of_event_record event R) as (f & t & ds & _ & _ & _ & Q).
    rewrite <- request_of_annotate with (n := n) (url := url) in Q.
    now apply request_of_ok in Q.
  - destruct (is_event_record (annotate n url event)) eqn:R'; [|reflexivity].
    destruct (request_of_event_record _ R') as (f & t & ds & _ & _ & _ & Q).
    rewrite request_of_annotate in Q.
    apply request_of_ok in Q as [Q _]. congruence.
Qed.

Lemma annotate_from_event_records (n : nat) (url : pystr)
    (events : list json) :
  forallb is_event_record (annotate_from n url events)
  = forallb is_event_record events.
Proof.
  revert n; induction events as [|event rest IH]; intros n; simpl;
    [reflexivity|]. now rewrite annotate_event_record, IH.
Qed.

End AnnotatorEdges2.

(** ** The Batch Annotator: what a run sends, keeps and loses *)



(** X2. What a successful answer adds to an event is the [category] key
    alone: the keys of the event keep their order, [category] comes last
    when the event had none, and no other field (so no [confidence]) is
    added or changed. *)
Theorem merged_event_keys
    (RT : Runtime) (response : Response) (info fields : dict) :
  read_response response = Ok info ->
  dict_keys (dict_merge fields info)
  = match dict_get (u "category") fields with
    | Some _ => dict_keys fields
    | None => dict_keys fields ++ [u "category"]
    end
  /\ forall key : pystr,
       pystr_eqb key (u "category") = false ->
       dict_get key (dict_merge fields info) = dict_get key fields.
Proof.
  intros E. destruct (read_response_ok response info E) as [c ->].
  unfold dict_merge. cbn [fold_left fst snd]. split.
  - apply dict_keys_set.
  - intros key K. now apply dict_get_set_other.
Qed.

Lemma merged_event_keys_witness :
  let RT := table_runtime [(traffic_text, traffic_json)] in
  dict_keys
    (dict_merge [(u "title", JStr (u "A")); (u "description", JStr (u "d1"))]
       [(u "category", JStr (u "Traffic"))])
  = [u "title"; u "description"; u "category"].
Proof.
  intros RT.
  exact (proj1 (@merged_event_keys RT
                  {| status_code := 200; text := traffic_text |}
                  [(u "category", JStr (u "Traffic"))]
                  [(u "title", JStr (u "A"));
                   (u "description", JStr (u "d1"))]
                  eq_refl)).
Defined.

(** X3. A run that returns keeps the top level of the document: the
    written document has the keys of the input in their order, and every
    field but [events] is the field that was read. *)
Theorem top_level_fields_are_kept
    (RT : Runtime) (SRV : CategorizeServer)
    (url path content : pystr) (d : dict) (events : list json)
    (w' : world) :
  json_loads content = Some (JObj d) ->
  dict_get (u "events") d = Some (JArr events) ->
  process_and_update_events url path (start (Some content)) = (Ok tt, w') ->
  exists d' : dict,
    disk w' = Some (json_dumps (Some 4) false (JObj d'))
    /\ dict_keys d' = dict_keys d
    /\ forall key : pystr,
         pystr_eqb key (u "events") = false ->
         dict_get key d' = dict_get key d.
Proof.
  intros L G P.
  destruct (returned_run url path content d events w' L G P) as [_ D].
  eexists. split; [exact D|]. split.
  - now rewrite dict_keys_set, G.
  - intros key K. now apply dict_get_set_other.
Qed.

Lemma top_level_fields_are_kept_witness :
  let RT :=
    table_runtime
      [(file_versioned_text, file_versioned_json);
       (traffic_text, traffic_json)] in
  let SRV :=
    constant_server (Ok {| status_code := 200; text := traffic_text |}) in
  let w' :=
    snd (process_and_update_events endpoint_url json_filepath
           (start (Some file_versioned_text))) in
  exists d' : dict,
    disk w' = Some (json_dumps (Some 4) false (JObj d'))
    /\ dict_keys d' = [u "version"; u "events"]
    /\ forall key : pystr,
         pystr_eqb key (u "events") = false ->
         dict_get key d'
         = dict_get key [(u "version", JInt 1); (u "events", JArr [event_A])].
Proof.
  intros RT SRV w'.
  assert (P : process_and_update_events endpoint_url json_filepath
                (start (Some file_versioned_text)) = (Ok tt, w'))
    by (vm_compute; reflexivity).
  exact (@top_level_fields_are_kept RT SRV endpoint_url json_filepath
           file_versioned_text
           [(u "version", JInt 1); (u "events", JArr [event_A])]
           [event_A] w' eq_refl eq_refl P).
Defined.



(** X5. A file whose JSON document is not an object (a list, a string, a
    number) is not handled: [data.get] raises [AttributeError], which
    leaves [process_and_update_events] and [main] with no request sent,
    nothing written and nothing printed. *)
Theorem non_object_document_raises
    (RT : Runtime) (SRV : CategorizeServer)
    (url path content : pystr) (data : json) :
  json_loads content = Some data ->
  (forall d : dict, data <> JObj d) ->
  exists what : pystr,
    process_and_update_events url path (start (Some content))
    = (Raise (AttributeError what), loaded content)
    /\ main (start (Some content))
       = (Raise (AttributeError what), loaded content).
Proof.
  intros L H.
  assert (E : exists what,
            rbind (get_default data "events" (JArr [])) py_iter
            = Raise (AttributeError what)).
  { destruct data; try (eexists; reflexivity). now destruct (H fields). }
  destruct E as [what E]. exists what.
  assert (P : forall url path,
            process_and_update_events url path (start (Some content))
            = (Raise (AttributeError what), loaded content)).
  { intros url0 path0.
    now apply (process_raises_before_loop url0 path0 content data _ L E). }
  split; [apply P|]. unfold main.
  now rewrite (bind_raise _ _ _ _ _ (P endpoint_url json_filepath)).
Qed.

Lemma non_object_document_raises_witness :
  let RT := table_runtime [(file_list_text, file_list_json)] in
  let SRV :=
    constant_server (Ok {| status_code := 200; text := traffic_text |}) in
  exists what : pystr,
    process_and_update_events endpoint_url json_filepath
      (start (Some file_list_text))
    = (Raise (AttributeError what), loaded file_list_text)
    /\ main (start (Some file_list_text))
       = (Raise (AttributeError what), loaded file_list_text).
Proof.
  intros RT SRV.
  apply (@non_object_document_raises RT SRV endpoint_url json_filepath
           file_list_text file_list_json eq_refl).
  intros d. discriminate.
Defined.







(** X9. An answer must hold a confidence to count, although the
    confidence is then dropped: on a 2xx answer whose body is an object
    without a [confidence] key, [categorize_event] returns [None],
    whatever category the body holds. *)
Theorem answer_without_confidence_fails
    (RT : Runtime) (SRV : CategorizeServer)
    (url : pystr) (event : json) (category_input : CategoryInput)
    (w : world) (response : Response) (body : dict) :
  request_of event = Ok category_input ->
  http_post (count_posts w) url
    (JObj (CategoryInput_model_dump category_input)) = Ok response ->
  json_loads (text response) = Some (JObj body) ->
  dict_get (u "confidence") body = None ->
  fst (categorize_event url event w) = Ok None.
Proof.
  intros Q P J C.
  rewrite categorize_event_run, Q. cbn [fst].
  assert (F : categorization_fails (Ok response)).
  { apply (shape_mismatch response J).
    unfold CategoryOutput_fields, required. rewrite C.
    now destruct (dict_get (u "category") body) as [[]|]. }
  apply categorization_fails_raises in F as [e F].
  unfold answer_at. rewrite P. now rewrite F.
Qed.

Lemma answer_without_confidence_fails_witness :
  let RT := table_runtime [(category_only_text, category_only_json)] in
  let SRV :=
    constant_server
      (Ok {| status_code := 200; text := category_only_text |}) in
  fst (categorize_event endpoint_url event_A (start None)) = Ok None.
Proof.
  intros RT SRV.
  exact (@answer_without_confidence_fails RT SRV endpoint_url event_A
           category_input_A (start None)
           {| status_code := 200; text := category_only_text |}
           [(u "category", JStr (u "Traffic"))]
           eq_refl eq_refl eq_refl eq_refl).
Defined.

(** X10. A second run against a server that answers as before changes
    nothing: if the reader reads back the document that the first run
    wrote, the second run sends the same requests (an annotation does not
    touch the title or the description) and writes the same text. *)
Theorem second_run_writes_the_same_file
    (RT : Runtime) (SRV : CategorizeServer)
    (url path content : pystr) (d : dict) (events : list json)
    (w1 : world) :
  json_loads content = Some (JObj d) ->
  dict_get (u "events") d = Some (JArr events) ->
  process_and_update_events url path (start (Some content)) = (Ok tt, w1) ->
  (let d1 := dict_set (u "events") (JArr (annotate_from 0 url events)) d in
   json_loads (json_dumps (Some 4) false (JObj d1)) = Some (JObj d1)) ->
  exists w2 : world,
    process_and_update_events url path (start (disk w1)) = (Ok tt, w2)
    /\ disk w2 = disk w1
    /\ filter is_post (trace w2) = filter is_post (trace w1).
Proof.
  intros L G P Read. cbv zeta in Read.
  destruct (returned_run url path content d events w1 L G P) as [R D].
  set (ev1 := annotate_from 0 url events) in *.
  set (d1 := dict_set (u "events") (JArr ev1) d) in *.
  assert (G1 : get_default (JObj d1) "events" (JArr []) = Ok (JArr ev1)).
  { unfold get_default, d1. now rewrite dict_get_set_same. }
  assert (R1 : forallb is_event_record ev1 = true).
  { unfold ev1. now rewrite annotate_from_event_records. }
  destruct (process_run url path _ (JObj d1) (JArr ev1) ev1 Read G1
              eq_refl R1)
    as (d0 & [= <-] & _ & E).
  cbv zeta in E. fold ev1 in E.
  assert (S : dict_set (u "events") (JArr (annotate_from 0 url ev1)) d1
              = d1).
  { unfold ev1 at 1. rewrite annotate_from_twice. fold ev1.
    unfold d1. apply dict_set_twice. }
  rewrite S in E. rewrite D. eexists. split; [exact E|].
  split; [reflexivity|].
  cbn [trace].
  assert (G' : get_default (JObj d) "events" (JArr []) = Ok (JArr events))
    by (unfold get_default; now rewrite G).
  destruct (process_run url path content (JObj d) (JArr events) events
              L G' eq_refl R)
    as (d0 & _ & _ & E1).
  cbv zeta in E1. rewrite E1 in P. injection P as <-. cbn [trace].
  rewrite !filter_app. f_equal.
  clear. unfold ev1. generalize 0 at 1 2 3.
  induction events as [|event rest IH]; intros n; simpl; [reflexivity|].
  rewrite !filter_app, IH. f_equal.
  unfold turn_effects. rewrite request_of_annotate.
  destruct (request_of event) as [category_input|]; [|reflexivity].
  reflexivity.
Qed.

Lemma second_run_writes_the_same_file_witness :
  let RT :=
    table_runtime
      [(file_A_text, file_A_json); (traffic_text, traffic_json);
       (file_A_annotated_text, file_A_annotated_json)] in
  let SRV :=
    constant_server (Ok {| status_code := 200; text := traffic_text |}) in
  let w1 :=
    snd (process_and_update_events endpoint_url json_filepath
           (start (Some file_A_text))) in
  exists w2 : world,
    process_and_update_events endpoint_url json_filepath (start (disk w1))
    = (Ok tt, w2)
    /\ disk w2 = disk w1
    /\ filter is_post (trace w2) = filter is_post (trace w1).
Proof.
  intros RT SRV w1.
  assert (P : process_and_update_events endpoint_url json_filepath
                (start (Some file_A_text)) = (Ok tt, w1))
    by (vm_compute; reflexivity).
  apply (@second_run_writes_the_same_file RT SRV endpoint_url json_filepath
           file_A_text [(u "events", JArr [event_A])] [event_A] w1
           eq_refl eq_refl P).
  vm_compute. reflexivity.
Defined.

(** ** The Classification Service: the replies that the handlers take *)

Section ServiceReplies.
Context {RT : Runtime} {LLM : Service.ChatModel}.
Import Service.

(** A handled run, once the prompt and the reply are known. *)
Lemma handled_reply {A} (fields : json -> option A) (mismatch : json -> exn)
    (run : response A * list pystr) (prompt reply : pystr) (obj : json) :
  handled fields mismatch run ->
  snd run = [prompt] ->
  llm_invoke prompt = Ok reply ->
  parse_json_markdown reply = Some obj ->
  fst run
  = match fields obj with
    | Some body => Returned body
    | None => Raised (server_error (mismatch obj))
    end.
Proof.
  intros (prompt' & S & H) S' L P.
  rewrite S in S'. injection S' as ->.
  now rewrite H, L, P.
Qed.

Lemma required_str (d : dict) (name : string) (s : pystr) :
  required d name validate_str = Some s
  <-> dict_get (u name) d = Some (JStr s).
Proof.
  unfold required. split.
  - destruct (dict_get (u name) d) as [[]|]; try discriminate.
    now intros [= ->].
  - now intros ->.
Qed.

Lemma NewEventOutput_fields_some (obj : json) (body : NewEventOutput.t) :
  NewEventOutput_fields obj = Some body
  <-> exists d,
        obj = JObj d
        /\ dict_get (u "title") d = Some (JStr (NewEventOutput.title body))
        /\ dict_get (u "description") d
           = Some (JStr (NewEventOutput.description body)).
Proof.
  destruct body as [t ds]. cbn [NewEventOutput.title NewEventOutput.description].
  split.
  - unfold NewEventOutput_fields. destruct obj; try discriminate.
    destruct (required fields "title" validate_str) as [t'|] eqn:T;
      [|discriminate].
    destruct (required fields "description" validate_str) as [ds'|] eqn:D;
      [|discriminate].
    intros [= -> ->]. exists fields.
    apply required_str in T, D. auto.
  - intros (d & -> & T & D). apply required_str in T, D.
    unfold NewEventOutput_fields. now rewrite T, D.
Qed.

Lemma VerificationOutput_fields_some (obj : json)
    (body : VerificationOutput) :
  VerificationOutput_fields obj = Some body
  <-> exists d,
        obj = JObj d
        /\ dict_get (u "comparison") d = Some (JStr (comparison body))
        /\ dict_get (u "correctness") d = Some (JStr (correctness body))
        /\ dict_get (u "justification") d
           = Some (JStr (justification body))
        /\ dict_get (u "public_response") d
           = Some (JStr (public_response body)).
Proof.
  destruct body as [c r j p].
  cbn [comparison correctness justification public_response].
  split.
  - unfold VerificationOutput_fields. destruct obj; try discriminate.
    destruct (required fields "comparison" validate_str) eqn:C;
      [|discriminate].
    destruct (required fields "correctness" validate_str) eqn:R;
      [|discriminate].
    destruct (required fields "justification" validate_str) eqn:J;
      [|discriminate].
    destruct (required fields "public_response" validate_str) eqn:P;
      [|discriminate].
    intros [= -> -> -> ->]. exists fields.
    apply required_str in C, R, J, P. auto.
  - intros (d & -> & C & R & J & P). apply required_str in C, R, J, P.
    unfold VerificationOutput_fields. now rewrite C, R, J, P.
Qed.

Lemma validate_all_strs (emotions : list pystr) :
  validate_all validate_str (map JStr emotions) = Some emotions.
Proof.
  induction emotions as [|e l IH]; simpl; [reflexivity|]. now rewrite IH.
Qed.

Lemma SentimentDetail_fields_detail (n : Z) (emotions : list pystr) :
  in_0_100 n ->
  SentimentDetail_fields (detail_json n emotions)
  = Some {| strength := n; detectedEmotions := emotions |}.
Proof.
  intros [H0 H1]. unfold SentimentDetail_fields, detail_json, required.
  cbn [dict_get]. 
  change (pystr_eqb (u "strength") (u "strength")) with true.
  change (pystr_eqb (u "detectedEmotions") (u "strength")) with false.
  change (pystr_eqb (u "detectedEmotions") (u "detectedEmotions")) with true.
  cbn [validate_int validate_list_str]. rewrite validate_all_strs.
  assert (B : (0 <=? n)%Z && (n <=? 100)%Z = true).
  { apply andb_true_iff. split; now apply Z.leb_le. }
  now rewrite B.
Qed.

Lemma SentimentDetail_fields_out_of_range (block : dict) (z : Z) :
  dict_get (u "strength") block = Some (JInt z) ->
  (z < 0 \/ 100 < z)%Z ->
  SentimentDetail_fields (JObj block) = None.
Proof.
  intros S H. unfold SentimentDetail_fields, required. rewrite S.
  cbn [validate_int].
  destruct (dict_get (u "detectedEmotions") block) as [v|]; [|reflexivity].
  destruct (validate_list_str v); [|reflexivity].
  assert (B : (0 <=? z)%Z && (z <=? 100)%Z = false).
  { apply andb_false_iff.
    destruct H; [left; apply Z.leb_gt | right; apply Z.leb_gt]; lia. }
  now rewrite B.
Qed.

End ServiceReplies.

(** X11. [create_new_event] returns a body exactly when the reply is an
    object whose [title] and [description] are strings, and the body
    holds these two strings; what else the object holds is dropped. *)
Theorem create_new_event_takes_title_and_description
    (RT : Runtime) (LLM : Service.ChatModel)
    (new_event_input : Service.NewEventInput)
    (prompt reply : pystr) (obj : json)
    (body : Service.NewEventOutput.t) :
  snd (Service.create_new_event_endpoint new_event_input) = [prompt] ->
  Service.llm_invoke prompt = Ok reply ->
  parse_json_markdown reply = Some obj ->
  fst (Service.create_new_event_endpoint new_event_input)
  = Service.Returned body
  <-> exists d : dict,
        obj = JObj d
        /\ dict_get (u "title") d
           = Some (JStr (Service.NewEventOutput.title body))
        /\ dict_get (u "description") d
           = Some (JStr (Service.NewEventOutput.description body)).
Proof.
  intros S L P.
  rewrite (handled_reply _ _ _ prompt reply obj
             (create_new_event_handled new_event_input) S L P).
  rewrite <- NewEventOutput_fields_some.
  destruct (Service.NewEventOutput_fields obj) as [b|].
  - split; [now intros [= ->] | now intros [= ->]].
  - split; discriminate.
Qed.

Lemma create_new_event_takes_title_and_description_witness :
  let RT := table_runtime [(new_event_text, new_event_json)] in
  let LLM := constant_model (Ok new_event_text) in
  fst (Service.create_new_event_endpoint
         {| Service.news_content := u "n1" |})
  = Service.Returned
      {| Service.NewEventOutput.title := u "T";
         Service.NewEventOutput.description := u "D" |}.
Proof.
  intros RT LLM.
  pose (input := {| Service.news_content := u "n1" |}).
  assert (S : snd (Service.create_new_event_endpoint input)
              = [hd [] (snd (Service.create_new_event_endpoint input))])
    by (vm_compute; reflexivity).
  apply (proj2 (@create_new_event_takes_title_and_description RT LLM input
                  _ new_event_text new_event_json
                  {| Service.NewEventOutput.title := u "T";
                     Service.NewEventOutput.description := u "D" |}
                  S eq_refl eq_refl)).
  eexists. split; [reflexivity|]. split; reflexivity.
Defined.

(** X12. [verify_event_information] returns a body exactly when the
    reply is an object whose four fields are strings, and the body holds
    these strings: [correctness] is taken as it is, whatever label it
    is. *)
Theorem verify_event_information_takes_four_strings
    (RT : Runtime) (LLM : Service.ChatModel)
    (verification_input : Service.VerificationInput)
    (prompt reply : pystr) (obj : json)
    (body : Service.VerificationOutput) :
  snd (Service.verify_event_information_endpoint verification_input)
  = [prompt] ->
  Service.llm_invoke prompt = Ok reply ->
  parse_json_markdown reply = Some obj ->
  fst (Service.verify_event_information_endpoint verification_input)
  = Service.Returned body
  <-> exists d : dict,
        obj = JObj d
        /\ dict_get (u "comparison") d
           = Some (JStr (Service.comparison body))
        /\ dict_get (u "correctness") d
           = Some (JStr (Service.correctness body))
        /\ dict_get (u "justification") d
           = Some (JStr (Service.justification body))
        /\ dict_get (u "public_response") d
           = Some (JStr (Service.public_response body)).
Proof.
  intros S L P.
  rewrite (handled_reply _ _ _ prompt reply obj
             (verify_event_information_handled verification_input) S L P).
  rewrite <- VerificationOutput_fields_some.
  destruct (Service.VerificationOutput_fields obj) as [b|].
  - split; [now intros [= ->] | now intros [= ->]].
  - split; discriminate.
Qed.

Lemma verify_event_information_takes_four_strings_witness :
  let RT := table_runtime [(verification_text, verification_json)] in
  let LLM := constant_model (Ok verification_text) in
  fst (Service.verify_event_information_endpoint
         {| Service.event_info := [(u "k", JStr [243%N])];
            Service.authority_info := u "a" |})
  = Service.Returned
      {| Service.comparison := u "c"; Service.correctness := u "Maybe";
         Service.justification := u "j"; Service.public_response := u "p" |}.
Proof.
  intros RT LLM.
  pose (input := {| Service.event_info := [(u "k", JStr [243%N])];
                    Service.authority_info := u "a" |}).
  assert (S : snd (Service.verify_event_information_endpoint input)
              = [hd [] (snd (Service.verify_event_information_endpoint
                               input))])
    by (vm_compute; reflexivity).
  apply (proj2 (@verify_event_information_takes_four_strings RT LLM input
                  _ verification_text verification_json
                  {| Service.comparison := u "c";
                     Service.correctness := u "Maybe";
                     Service.justification := u "j";
                     Service.public_response := u "p" |}
                  S eq_refl eq_refl)).
  eexists. split; [reflexivity|]. repeat split.
Defined.

(** X13. [analyze_sentiment] checks each strength and not their sum: a
    reply of three blocks whose strengths lie between 0 and 100 is
    returned as it is, whatever the three add up to. *)
Theorem sentiment_sum_is_not_checked
    (RT : Runtime) (LLM : Service.ChatModel)
    (sentiment_input : Service.SentimentInput.t) (prompt reply : pystr)
    (a n p : Z) (ea en ep : list pystr) :
  snd (Service.analyze_sentiment sentiment_input) = [prompt] ->
  Service.llm_invoke prompt = Ok reply ->
  parse_json_markdown reply
  = Some (sentiment_reply (detail_json a ea) (detail_json n en)
            (detail_json p ep)) ->
  Service.in_0_100 a -> Service.in_0_100 n -> Service.in_0_100 p ->
  fst (Service.analyze_sentiment sentiment_input)
  = Service.Returned
      {| Service.agitation :=
           {| Service.strength := a; Service.detectedEmotions := ea |};
         Service.neutral :=
           {| Service.strength := n; Service.detectedEmotions := en |};
         Service.positive :=
           {| Service.strength := p; Service.detectedEmotions := ep |} |}.
Proof.
  intros S L P Ha Hn Hp.
  rewrite (handled_reply _ _ _ prompt reply _
             (analyze_sentiment_handled sentiment_input) S L P).
  unfold Service.Sentiment_fields, sentiment_reply, required.
  cbn [dict_get].
  change (pystr_eqb (u "agitation") (u "agitation")) with true.
  change (pystr_eqb (u "neutral") (u "agitation")) with false.
  change (pystr_eqb (u "neutral") (u "neutral")) with true.
  change (pystr_eqb (u "positive") (u "agitation")) with false.
  change (pystr_eqb (u "positive") (u "neutral")) with false.
  change (pystr_eqb (u "positive") (u "positive")) with true.
  cbv iota.
  now rewrite !SentimentDetail_fields_detail by assumption.
Qed.

Lemma sentiment_sum_is_not_checked_witness :
  let RT := table_runtime [(full_sentiment_text, full_sentiment_json)] in
  let LLM := constant_model (Ok full_sentiment_text) in
  fst (Service.analyze_sentiment sentiment_input_A)
  = Service.Returned
      {| Service.agitation :=
           {| Service.strength := 100;
              Service.detectedEmotions := [u "anger"] |};
         Service.neutral :=
           {| Service.strength := 100; Service.detectedEmotions := [] |};
         Service.positive :=
           {| Service.strength := 100;
              Service.detectedEmotions := [u "joy"] |} |}.
Proof.
  intros RT LLM.
  assert (S : snd (Service.analyze_sentiment sentiment_input_A)
              = [hd [] (snd (Service.analyze_sentiment sentiment_input_A))])
    by (vm_compute; reflexivity).
  apply (@sentiment_sum_is_not_checked RT LLM sentiment_input_A _
           full_sentiment_text 100 100 100 [u "anger"] [] [u "joy"]
           S eq_refl eq_refl);
    unfold Service.in_0_100; lia.
Defined.

(** X14. A strength below 0 or above 100 in any of the three blocks
    makes [analyze_sentiment] answer with status 500: no body is returned
    with the other blocks. *)
Theorem sentiment_strength_out_of_range
    (RT : Runtime) (LLM : Service.ChatModel)
    (sentiment_input : Service.SentimentInput.t) (prompt reply : pystr)
    (d block : dict) (key : pystr) (z : Z) :
  snd (Service.analyze_sentiment sentiment_input) = [prompt] ->
  Service.llm_invoke prompt = Ok reply ->
  parse_json_markdown reply = Some (JObj d) ->
  In key [u "agitation"; u "neutral"; u "positive"] ->
  dict_get key d = Some (JObj block) ->
  dict_get (u "strength") block = Some (JInt z) ->
  (z < 0 \/ 100 < z)%Z ->
  fst (Service.analyze_sentiment sentiment_input)
  = Service.Raised
      (Service.server_error
         (Service.rejected_by_parser "Sentiment" (JObj d))).
Proof.
  intros S L P K B Z H.
  rewrite (handled_reply _ _ _ prompt reply _
             (analyze_sentiment_handled sentiment_input) S L P).
  assert (N : Service.Sentiment_fields (JObj d) = None).
  { pose proof (SentimentDetail_fields_out_of_range block z Z H) as O.
    unfold Service.Sentiment_fields, required.
    destruct K as [<-|[<-|[<-|[]]]]; rewrite B, O.
    - reflexivity.
    - now destruct (match dict_get (u "agitation") d with
                    | Some v => Service.SentimentDetail_fields v
                    | None => None
                    end).
    - destruct (match dict_get (u "agitation") d with
                | Some v => Service.SentimentDetail_fields v
                | None => None
                end); [|reflexivity].
      now destruct (match dict_get (u "neutral") d with
                    | Some v => Service.SentimentDetail_fields v
                    | None => None
                    end). }
  now rewrite N.
Qed.

Lemma sentiment_strength_out_of_range_witness :
  let RT := table_runtime [(over_sentiment_text, over_sentiment_json)] in
  let LLM := constant_model (Ok over_sentiment_text) in
  exists detail : pystr,
    fst (Service.analyze_sentiment sentiment_input_A)
    = Service.Raised
        {| Service.status_code := 500; Service.detail := detail |}.
Proof.
  intros RT LLM.
  assert (S : snd (Service.analyze_sentiment sentiment_input_A)
              = [hd [] (snd (Service.analyze_sentiment sentiment_input_A))])
    by (vm_compute; reflexivity).
  eexists.
  apply (@sentiment_strength_out_of_range RT LLM sentiment_input_A _
           over_sentiment_text
           [(u "agitation", detail_json 20 []);
            (u "neutral", detail_json 101 []);
            (u "positive", detail_json 30 [])]
           [(u "strength", JInt 101); (u "detectedEmotions", JArr [])]
           (u "neutral") 101 S eq_refl eq_refl).
  - right. left. reflexivity.
  - reflexivity.
  - reflexivity.
  - right. lia.
Defined.

(** X15. The prompts of [categorize_event], [analyze_sentiment] and
    [create_new_event] are the literal parts of their templates with the
    fields of the request between them, as they were received: a brace or
    a placeholder inside a field is not read as one. *)
Theorem prompts_hold_the_fields_verbatim :
  (exists a b c : pystr,
     parse_format (u Service.prompt_category) [] None
     = Ok [Lit a; Field (u "title"); Lit b; Field (u "description"); Lit c]
     /\ forall (RT : Runtime) (LLM : Service.ChatModel)
               (category_input : CategoryInput),
          snd (Service.categorize_event category_input)
          = [a ++ title category_input ++ b
               ++ description category_input ++ c])
  /\ (exists a b c e : pystr,
        parse_format (u Service.prompt_sentiment) [] None
        = Ok [Lit a; Field (u "title"); Lit b; Field (u "description");
              Lit c; Field (u "last_news"); Lit e]
        /\ forall (RT : Runtime) (LLM : Service.ChatModel)
                  (sentiment_input : Service.SentimentInput.t),
             snd (Service.analyze_sentiment sentiment_input)
             = [a ++ Service.SentimentInput.title sentiment_input ++ b
                  ++ Service.SentimentInput.description sentiment_input
                  ++ c ++ Service.SentimentInput.last_news sentiment_input
                  ++ e])
  /\ (exists a b : pystr,
        parse_format (u Service.prompt_new_event) [] None
        = Ok [Lit a; Field (u "news_content"); Lit b]
        /\ forall (RT : Runtime) (LLM : Service.ChatModel)
                  (new_event_input : Service.NewEventInput),
             snd (Service.create_new_event_endpoint new_event_input)
             = [a ++ Service.news_content new_event_input ++ b]).
Proof.
  split; [|split].
  - destruct parse_prompt_category as (a & b & c & E).
    exists a, b, c. split; [exact E|]. intros RT LLM category_input.
    unfold Service.categorize_event, Service.category_chain,
      Service.chain_invoke, format_prompt.
    rewrite E. cbn. now rewrite app_nil_r.
  - destruct parse_prompt_sentiment as (a & b & c & e & E).
    exists a, b, c, e. split; [exact E|]. intros RT LLM sentiment_input.
    unfold Service.analyze_sentiment, Service.sentiment_chain,
      Service.chain_invoke, format_prompt.
    rewrite E. cbn. now rewrite app_nil_r.
  - destruct parse_prompt_new_event as (a & b & E).
    exists a, b. split; [exact E|]. intros RT LLM new_event_input.
    unfold Service.create_new_event_endpoint, Service.new_event_chain,
      Service.chain_invoke, format_prompt.
    rewrite E. cbn. now rewrite app_nil_r.
Qed.
